(** * Soil analysis service ([isricv5.py]): model and verified properties

    The service answers [GET /api/analyze?lat=..&lon=..].  It looks for a
    stored record near the query, reuses it when it is at most two days
    old, deletes it otherwise, and on a miss queries the SoilGrids and
    WeatherAPI services, derives advisory strings and stores a new record.

    The development is a shallow embedding of the Python source:
    - JSON payloads and Python objects are values of [pyval];
    - Python [float] is the kernel's binary64 [float], Python [int] is [Z];
    - a Python exception is the [Raise] branch of [pyres];
    - the request handler runs in a state monad over the database rows, the
      SQLAlchemy session and the log of outgoing HTTP calls.

    What lies outside the source is kept abstract or simple:
    - the order in which [list(a_set)] enumerates a set is a parameter
      ([set_order]);
    - an f-string [f"{value} unit"] of the response is kept as the value
      and the literal text ([fstring]), not rendered;
    - a row holds the values its object was given, the storage
      conversions of SQLite are not modelled: the real table hands an
      int written to a Float column back as a float, and the real commit
      also refuses a NaN and an int beyond the float range; of the table's
      constraints the NOT NULL ones are checked at commit;
    - [sum] adds from left to right with [+]. *)

From Stdlib Require Import ZArith List String Ascii Bool Lia Floats.
From Stdlib Require Import DecimalString Permutation.
Import ListNotations.
Open Scope string_scope.
Open Scope Z_scope.

(* ================================================================== *)
(** ** Python values and exceptions *)
(* ================================================================== *)

Module Py.

(** The exception classes that the modelled code can raise. [DBError] is
    what [db.session.commit()] raises when the INSERT is refused
    (sqlalchemy.exc.IntegrityError on a NOT NULL column);
    [RequestException] and [JSONDecodeError] come from [requests]. *)
Inductive exn : Type :=
| TypeError | KeyError | IndexError | AttributeError
| OverflowError | ZeroDivisionError
| RequestException | JSONDecodeError | DBError.

Inductive pyres (A : Type) : Type :=
| Ok (a : A)
| Raise (e : exn).
Arguments Ok {A} a.
Arguments Raise {A} e.

Definition bind {A B} (c : pyres A) (k : A -> pyres B) : pyres B :=
  match c with
  | Ok a => k a
  | Raise e => Raise e
  end.

(** A Python object as far as the service meets one: the values that
    [response.json()] can produce.  A dict keeps its items in insertion
    order; lookups take the first item with the key. *)
#[warnings="-register-all"]
Inductive pyval : Type :=
| PNone
| PBool (b : bool)
| PInt (z : Z)
| PFloat (f : float)
| PStr (s : string)
| PList (l : list pyval)
| PDict (d : list (string * pyval)).

Definition is_none (v : pyval) : bool :=
  match v with PNone => true | _ => false end.

End Py.
Export Py.

Declare Scope py_scope.
Delimit Scope py_scope with py.
Notation "x <- c ;; k" := (bind c (fun x => k))
  (at level 100, c at next level, right associativity) : py_scope.
Open Scope py_scope.

(* ================================================================== *)
(** ** Numbers: [int] and [float] *)
(* ================================================================== *)

Module Num.

(** [float(z)] for an int: the nearest binary64 value, ties to even;
    [OverflowError] when that is not finite. *)
Definition float_of_Z (z : Z) : pyres float :=
  let f := SF2Prim (binary_normalize prec emax z 0 false) in
  if PrimFloat.is_infinity f then Raise OverflowError else Ok f.

(** The sign of a float and its exact value [m * 2^e] ([m] signed). *)
Inductive fclass : Type :=
| FNaN
| FInf (negative : bool)
| FFin (m e : Z).

Definition decode (f : float) : fclass :=
  match Prim2SF f with
  | S754_nan => FNaN
  | S754_infinity s => FInf s
  | S754_zero _ => FFin 0 0
  | S754_finite s m e => FFin (if s then Z.neg m else Z.pos m) e
  end.

(** Exact comparison of an int with a float, as [float_richcompare] does
    it: no rounding of the int. [None] when the float is a NaN. *)
Definition compare_Z_float (z : Z) (f : float) : option comparison :=
  match decode f with
  | FNaN => None
  | FInf true => Some Gt
  | FInf false => Some Lt
  | FFin m e =>
      if 0 <=? e then Some (z ?= m * 2 ^ e)
      else Some (z * 2 ^ (- e) ?= m)
  end.

Inductive num : Type :=
| NInt (z : Z)
| NFloat (f : float).

(** [bool] is a subclass of [int]. *)
Definition as_num (v : pyval) : option num :=
  match v with
  | PBool b => Some (NInt (if b then 1 else 0))
  | PInt z => Some (NInt z)
  | PFloat f => Some (NFloat f)
  | _ => None
  end.

Definition num_ltb (a b : num) : bool :=
  match a, b with
  | NInt x, NInt y => x <? y
  | NFloat x, NFloat y => PrimFloat.ltb x y
  | NInt x, NFloat y =>
      match compare_Z_float x y with Some Lt => true | _ => false end
  | NFloat x, NInt y =>
      match compare_Z_float y x with Some Gt => true | _ => false end
  end.

Definition num_leb (a b : num) : bool :=
  match a, b with
  | NInt x, NInt y => x <=? y
  | NFloat x, NFloat y => PrimFloat.leb x y
  | NInt x, NFloat y =>
      match compare_Z_float x y with Some Lt | Some Eq => true | _ => false end
  | NFloat x, NInt y =>
      match compare_Z_float y x with Some Gt | Some Eq => true | _ => false end
  end.

(** [a < b] and [a >= b] where one side is a number literal: an operand
    that is not a number raises [TypeError]. *)
Definition py_lt (a b : pyval) : pyres bool :=
  match as_num a, as_num b with
  | Some x, Some y => Ok (num_ltb x y)
  | _, _ => Raise TypeError
  end.

Definition py_ge (a b : pyval) : pyres bool :=
  match as_num a, as_num b with
  | Some x, Some y => Ok (num_leb y x)
  | _, _ => Raise TypeError
  end.

(** True division of two ints: the exact quotient rounded once to the
    nearest binary64 value.  The quotient is taken with at least 64
    significant bits and a sticky bit, which [binary_normalize] then
    rounds. *)
Definition Z_truediv (a b : Z) : pyres float :=
  if b =? 0 then Raise ZeroDivisionError
  else
    let neg := xorb (a <? 0) (b <? 0) in
    let n := Z.abs a in
    let d := Z.abs b in
    let k := Z.max 0 (64 + Z.log2 d - Z.log2 n) in
    let q := (n * 2 ^ k) / d in
    let sticky := if (n * 2 ^ k) mod d =? 0 then 0 else 1 in
    let m := 2 * q + sticky in
    let f := SF2Prim (binary_normalize prec emax (if neg then - m else m)
                        (- k - 1) neg) in
    if PrimFloat.is_infinity f then Raise OverflowError else Ok f.

Definition num_truediv (a b : num) : pyres float :=
  match a, b with
  | NInt x, NInt y => Z_truediv x y
  | _, _ =>
      x <- match a with NInt z => float_of_Z z | NFloat f => Ok f end ;;
      y <- match b with NInt z => float_of_Z z | NFloat f => Ok f end ;;
      if PrimFloat.eqb y 0 then Raise ZeroDivisionError
      else Ok (PrimFloat.div x y)
  end.

(** [a / b]: always a float when it returns. *)
Definition py_truediv (a b : pyval) : pyres float :=
  match as_num a, as_num b with
  | Some x, Some y => num_truediv x y
  | _, _ => Raise TypeError
  end.

Definition num_add (a b : num) : pyres num :=
  match a, b with
  | NInt x, NInt y => Ok (NInt (x + y))
  | _, _ =>
      x <- match a with NInt z => float_of_Z z | NFloat f => Ok f end ;;
      y <- match b with NInt z => float_of_Z z | NFloat f => Ok f end ;;
      Ok (NFloat (PrimFloat.add x y))
  end.

End Num.
Export Num.

(* ================================================================== *)
(** ** Strings and formatting *)
(* ================================================================== *)

Module Fmt.

(** [str(z)] for an int. *)
Definition str_of_Z (z : Z) : string := NilZero.string_of_int (Z.to_int z).

(** Round the exact rational [n / d] ([0 <= n], [0 < d]) to the nearest
    integer, ties to even. *)
Definition round_half_even (n d : Z) : Z :=
  let q := n / d in
  let r := n mod d in
  match 2 * r ?= d with
  | Lt => q
  | Gt => q + 1
  | Eq => if Z.even q then q else q + 1
  end.

(** [format(f, ".1f")]: the exact value of the float, correctly rounded to
    one digit after the point. *)
Definition format_1f (f : float) : string :=
  match decode f with
  | FNaN => "nan"
  | FInf s => if s then "-inf" else "inf"
  | FFin m e =>
      let tenths :=
        if 0 <=? e then Z.abs m * 2 ^ e * 10
        else round_half_even (Z.abs m * 10) (2 ^ (- e)) in
      ((if PrimFloat.get_sign f then "-" else "") ++
       str_of_Z (tenths / 10) ++ "." ++ str_of_Z (tenths mod 10))%string
  end.

(** ["; ".join(xs)] and friends. *)
Definition join (sep : string) (xs : list string) : string :=
  String.concat sep xs.

End Fmt.
Export Fmt.

(* ================================================================== *)
(** ** Containers: subscripts, [.get], iteration, truthiness *)
(* ================================================================== *)

Module Obj.

Fixpoint assoc (k : string) (d : list (string * pyval)) : option pyval :=
  match d with
  | [] => None
  | (k', v) :: rest => if String.eqb k k' then Some v else assoc k rest
  end.

(** [obj[key]] with a string key. *)
Definition getitem (obj : pyval) (key : string) : pyres pyval :=
  match obj with
  | PDict d =>
      match assoc key d with
      | Some v => Ok v
      | None => Raise KeyError
      end
  | _ => Raise TypeError
  end.

Fixpoint chars (s : string) : list pyval :=
  match s with
  | EmptyString => []
  | String c rest => PStr (String c EmptyString) :: chars rest
  end.

(** [obj[0]]. *)
Definition getitem0 (obj : pyval) : pyres pyval :=
  match obj with
  | PList (x :: _) => Ok x
  | PList [] => Raise IndexError
  | PStr s =>
      match chars s with
      | x :: _ => Ok x
      | [] => Raise IndexError
      end
  | PDict _ => Raise KeyError
  | _ => Raise TypeError
  end.

(** [obj.get(key, default)]; only a dict has the method. *)
Definition get (obj : pyval) (key : string) (default : pyval) : pyres pyval :=
  match obj with
  | PDict d =>
      match assoc key d with
      | Some v => Ok v
      | None => Ok default
      end
  | _ => Raise AttributeError
  end.

(** [obj.values()]. *)
Definition values (obj : pyval) : pyres (list pyval) :=
  match obj with
  | PDict d => Ok (map snd d)
  | _ => Raise AttributeError
  end.

(** The items that [for x in obj] goes through. *)
Definition iter (obj : pyval) : pyres (list pyval) :=
  match obj with
  | PList l => Ok l
  | PDict d => Ok (map (fun kv => PStr (fst kv)) d)
  | PStr s => Ok (chars s)
  | _ => Raise TypeError
  end.

(** [len(obj)]. *)
Definition len (obj : pyval) : pyres Z :=
  match obj with
  | PList l => Ok (Z.of_nat (List.length l))
  | PDict d => Ok (Z.of_nat (List.length d))
  | PStr s => Ok (Z.of_nat (String.length s))
  | _ => Raise TypeError
  end.

(** [bool(obj)]. *)
Definition truthy (obj : pyval) : bool :=
  match obj with
  | PNone => false
  | PBool b => b
  | PInt z => negb (z =? 0)
  | PFloat f => negb (PrimFloat.eqb f 0)
  | PStr s => negb (String.eqb s "")
  | PList l => match l with [] => false | _ => true end
  | PDict d => match d with [] => false | _ => true end
  end.

(** [obj == "literal"]: never raises. *)
Definition eq_str (obj : pyval) (s : string) : bool :=
  match obj with
  | PStr t => String.eqb t s
  | _ => false
  end.

End Obj.

(* ================================================================== *)
(** ** The two upstream services *)
(* ================================================================== *)

(** What [requests.get(url)] does: it raises, or it returns a response
    with a status code and a body, which [response.json()] parses or
    refuses. *)
Inductive http_result : Type :=
| HttpRaise (e : exn)
| HttpResponse (status_code : Z) (json : option pyval).

Definition response_json (json : option pyval) : pyres pyval :=
  match json with
  | Some v => Ok v
  | None => Raise JSONDecodeError
  end.

(** [all(value is None for layer in soil_data for value in layer.values())]
    over the items of [soil_data]: it stops at the first value that is not
    [None]. *)
Fixpoint all_values_none (layers : list pyval) : pyres bool :=
  match layers with
  | [] => Ok true
  | layer :: rest =>
      vs <- Obj.values layer ;;
      if forallb is_none vs then all_values_none rest else Ok false
  end.

(** [get_soil_data(lat, lon)], given what the GET returned. *)
Definition get_soil_data (r : http_result) : pyres pyval :=
  match r with
  | HttpRaise e => Raise e
  | HttpResponse status_code json =>
      if status_code =? 200 then
        body <- response_json json ;;
        props <- Obj.getitem body "properties" ;;
        soil_data <- Obj.getitem props "layers" ;;
        layers <- Obj.iter soil_data ;;
        null <- all_values_none layers ;;
        if null then
          Ok (PDict [("error", PStr "Data returned is null. Please try again later.")])
        else Ok soil_data
      else
        Ok (PDict [("error",
                    PStr ("Failed to fetch data: " ++ str_of_Z status_code))])
  end.

(** [get_weather_data(lat, lon)], given what the GET returned. *)
Definition get_weather_data (r : http_result) : pyres pyval :=
  match r with
  | HttpRaise e => Raise e
  | HttpResponse status_code json =>
      if status_code =? 200 then
        body <- response_json json ;;
        forecast <- Obj.getitem body "forecast" ;;
        Obj.getitem forecast "forecastday"
      else Ok PNone
  end.

(* ================================================================== *)
(** ** Recommendations *)
(* ================================================================== *)

(** A Python [set] of strings is kept as the list of its elements in
    insertion order, without repetition.  [list(s)] enumerates the set in
    an order that depends on the interpreter's string hashing: it is a
    parameter of the model, any function that permutes its argument. *)
Definition set_add (x : string) (s : list string) : list string :=
  if existsb (String.eqb x) s then s else (s ++ [x])%list.

Record set_order : Type := {
  list_of_set :> list string -> list string;
  list_of_set_perm : forall s, Permutation (list_of_set s) s
}.

Definition insertion_order : set_order :=
  {| list_of_set := fun s => s;
     list_of_set_perm := fun s => Permutation_refl s |}.

Definition MSG_NITROGEN := "Consider adding nitrogen-based fertilizers.".
Definition MSG_MOISTURE := "Soil moisture is low. Increase irrigation.".
Definition MSG_PH_OPTIMAL := "Soil pH is within the optimal range.".
Definition MSG_PH_LIME := "Consider adding lime to raise the pH.".
Definition MSG_PH_SULFUR := "Consider adding sulfur to lower the pH.".
Definition MSG_CEC := "CEC is within the optimal range.".

Definition msg_rain (avg_rain : float) : string :=
  ("High average chance of rain (" ++ format_1f avg_rain
     ++ "%). Delay irrigation.")%string.

Definition msg_wind (avg_wind : float) : string :=
  ("Strong winds expected (" ++ format_1f avg_wind
     ++ " kph). Protect crops.")%string.

(** [sum(day['day'][field] for day in weather_data)]: the items are added
    from left to right, starting from the int 0. *)
Fixpoint sum_days (field : string) (days : list pyval) (acc : num)
  : pyres num :=
  match days with
  | [] => Ok acc
  | day :: rest =>
      d <- Obj.getitem day "day" ;;
      v <- Obj.getitem d field ;;
      match as_num v with
      | Some x => acc' <- num_add acc x ;; sum_days field rest acc'
      | None => Raise TypeError
      end
  end.

(** [sum(day['day'][field] for day in weather_data) / len(weather_data)]. *)
Definition average (field : string) (weather_data : pyval) : pyres float :=
  days <- Obj.iter weather_data ;;
  total <- sum_days field days (NInt 0) ;;
  n <- Obj.len weather_data ;;
  num_truediv total (NInt n).

(** Lines 77-82: the pH branches on [ph = phh2o / 10]. *)
Definition ph_rule (ph : float) (recommendations : list string)
  : list string :=
  if num_ltb (NInt 6) (NFloat ph) && num_ltb (NFloat ph) (NFloat 7.5) then
    set_add MSG_PH_OPTIMAL recommendations
  else if num_ltb (NFloat ph) (NInt 6) then
    set_add MSG_PH_LIME recommendations
  else if num_ltb (NFloat 7.5) (NFloat ph) then
    set_add MSG_PH_SULFUR recommendations
  else recommendations.

(** Lines 86-92: the rules on the forecast. *)
Definition weather_rules (weather_data : pyval) (recommendations : list string)
  : pyres (list string) :=
  if Obj.truthy weather_data then
    avg_rain <- average "daily_chance_of_rain" weather_data ;;
    avg_wind <- average "maxwind_kph" weather_data ;;
    let recommendations :=
      if num_ltb (NInt 50) (NFloat avg_rain)
      then set_add (msg_rain avg_rain) recommendations
      else recommendations in
    let recommendations :=
      if num_ltb (NInt 20) (NFloat avg_wind)
      then set_add (msg_wind avg_wind) recommendations
      else recommendations in
    Ok recommendations
  else Ok recommendations.

(** [generate_recommendations(soil_data, weather_data)]. *)
Definition generate_recommendations (order : set_order)
    (soil_data weather_data : pyval) : pyres (list string) :=
  nitrogen <- Obj.get soil_data "nitrogen" (PInt 0) ;;
  moisture <- Obj.get soil_data "wv0010" (PInt 0) ;;
  phh2o <- Obj.get soil_data "phh2o" (PInt 0) ;;
  ph <- py_truediv phh2o (PInt 10) ;;
  cec <- Obj.get soil_data "cec" (PInt 0) ;;
  let recommendations := [] in
  low_n <- py_lt nitrogen (PInt 100) ;;
  let recommendations :=
    if low_n then set_add MSG_NITROGEN recommendations
    else recommendations in
  dry <- py_lt moisture (PFloat 0x1.999999999999ap-3) (* 0.2 *) ;;
  let recommendations :=
    if dry then set_add MSG_MOISTURE recommendations
    else recommendations in
  let recommendations := ph_rule ph recommendations in
  cec_ok <- py_ge cec (PInt 10) ;;
  let recommendations :=
    if cec_ok then set_add MSG_CEC recommendations
    else recommendations in
  recommendations <- weather_rules weather_data recommendations ;;
  Ok (order recommendations).

(* ================================================================== *)
(** ** Stored records, the session and the request monad *)
(* ================================================================== *)

(** A [datetime]: the wall-clock reading in microseconds since the epoch,
    and the UTC offset of its [tzinfo] (in microseconds) when it has one. *)
Record datetime : Type := {
  wall : Z;
  tzinfo : option Z
}.

(** [datetime.now(timezone.utc)] when the clock reads [t]. *)
Definition now_utc (t : Z) : datetime := {| wall := t; tzinfo := Some 0 |}.

(** [d.replace(tzinfo=timezone.utc)]. *)
Definition replace_tzinfo_utc (d : datetime) : datetime :=
  {| wall := wall d; tzinfo := Some 0 |}.

(** [a - b] as a [timedelta] in microseconds; mixing an aware and a naive
    datetime raises. *)
Definition datetime_sub (a b : datetime) : pyres Z :=
  match tzinfo a, tzinfo b with
  | Some oa, Some ob => Ok ((wall a - oa) - (wall b - ob))
  | None, None => Ok (wall a - wall b)
  | _, _ => Raise TypeError
  end.

(** [timedelta(days=n)] in microseconds. *)
Definition timedelta_days (n : Z) : Z := n * 86400 * 1000000.

(** A row of the [SoilData] table, as the ORM hands it out.  [id] is
    [None] until the row is inserted.  The measurement columns hold the
    values the object was given; all of them are declared
    [nullable=False]. *)
Record SoilData : Type := {
  id : option Z;
  lat : float;
  lon : float;
  nitrogen : pyval;
  nitrogen_uncertainty : pyval;
  ph : pyval;
  moisture : pyval;
  cec : pyval;
  temperature : pyval;
  humidity : pyval;
  recommendations : string;
  predictions : string;
  date_recorded : datetime
}.

Definition with_id (i : Z) (r : SoilData) : SoilData :=
  {| id := Some i; lat := lat r; lon := lon r; nitrogen := nitrogen r;
     nitrogen_uncertainty := nitrogen_uncertainty r; ph := ph r;
     moisture := moisture r; cec := cec r; temperature := temperature r;
     humidity := humidity r; recommendations := recommendations r;
     predictions := predictions r; date_recorded := date_recorded r |}.

Definition same_id (a b : SoilData) : bool :=
  match id a, id b with
  | Some x, Some y => x =? y
  | _, _ => false
  end.

(** The NOT NULL constraints of the table. *)
Definition not_null (r : SoilData) : bool :=
  negb (is_none (nitrogen r)) && negb (is_none (nitrogen_uncertainty r))
  && negb (is_none (ph r)) && negb (is_none (moisture r))
  && negb (is_none (cec r)) && negb (is_none (temperature r))
  && negb (is_none (humidity r)).

(** The key SQLite gives to a new row: one more than the largest in use. *)
Definition next_id (rows : list SoilData) : Z :=
  1 + fold_right (fun r m => match id r with
                             | Some i => Z.max i m
                             | None => m
                             end) 0 rows.

Definition delete_row (r : SoilData) (rows : list SoilData) : list SoilData :=
  filter (fun x => negb (same_id x r)) rows.

Inductive pending : Type :=
| PendingAdd (r : SoilData)
| PendingDelete (r : SoilData).

Inductive http_call : Type :=
| GetSoil (lat lon : float)
| GetWeather (lat lon : float).

(** What a request can touch: the table, the unit of work of the
    SQLAlchemy session, and the outgoing HTTP calls made so far. *)
Record state : Type := {
  rows : list SoilData;
  session : list pending;
  http_log : list http_call
}.

(** What the outside world answers during one request. *)
Record env : Type := {
  soil_api : float -> float -> http_result;
  weather_api : float -> float -> http_result;
  now_at_lookup : Z;
  now_at_insert : Z;
  order : set_order
}.

Definition M (A : Type) : Type := state -> pyres A * state.

Definition ret {A} (a : A) : M A := fun st => (Ok a, st).

Definition lift {A} (c : pyres A) : M A := fun st => (c, st).

Definition mbind {A B} (c : M A) (k : A -> M B) : M B :=
  fun st =>
    match c st with
    | (Ok a, st') => k a st'
    | (Raise e, st') => (Raise e, st')
    end.

Declare Scope req_scope.
Delimit Scope req_scope with req.
Notation "x <- c ;; k" := (mbind c (fun x => k))
  (at level 100, c at next level, right associativity) : req_scope.
Notation "c ;; k" := (mbind c (fun _ => k))
  (at level 100, right associativity) : req_scope.

(** [SoilData.query.all()]. *)
Definition query_all : M (list SoilData) :=
  fun st => (Ok (rows st), st).

(** [db.session.add(r)] and [db.session.delete(r)]. *)
Definition session_add (r : SoilData) : M unit :=
  fun st => (Ok tt, {| rows := rows st;
                       session := (session st ++ [PendingAdd r])%list;
                       http_log := http_log st |}).

Definition session_delete (r : SoilData) : M unit :=
  fun st => (Ok tt, {| rows := rows st;
                       session := (session st ++ [PendingDelete r])%list;
                       http_log := http_log st |}).

(** The flush of the pending changes inside one transaction. *)
Fixpoint flush (ps : list pending) (rows : list SoilData)
  : pyres (list SoilData) :=
  match ps with
  | [] => Ok rows
  | PendingDelete r :: rest => flush rest (delete_row r rows)
  | PendingAdd r :: rest =>
      if not_null r
      then flush rest (rows ++ [with_id (next_id rows) r])%list
      else Raise DBError
  end.

(** [db.session.commit()]: all pending changes reach the table, or none of
    them does and the exception propagates. *)
Definition session_commit : M unit :=
  fun st =>
    match flush (session st) (rows st) with
    | Ok rows' =>
        (Ok tt, {| rows := rows'; session := []; http_log := http_log st |})
    | Raise e =>
        (Raise e, {| rows := rows st; session := []; http_log := http_log st |})
    end.

Definition http_get_soil (w : env) (lat lon : float) : M http_result :=
  fun st => (Ok (soil_api w lat lon),
             {| rows := rows st; session := session st;
                http_log := (http_log st ++ [GetSoil lat lon])%list |}).

Definition http_get_weather (w : env) (lat lon : float) : M http_result :=
  fun st => (Ok (weather_api w lat lon),
             {| rows := rows st; session := session st;
                http_log := (http_log st ++ [GetWeather lat lon])%list |}).

(* ================================================================== *)
(** ** Proximity lookup *)
(* ================================================================== *)

(** The test of line 100. *)
Definition near (threshold lat0 lon0 : float) (record : SoilData) : bool :=
  PrimFloat.leb (PrimFloat.abs (PrimFloat.sub (lat record) lat0)) threshold
  && PrimFloat.leb (PrimFloat.abs (PrimFloat.sub (lon record) lon0)) threshold.

(** [find_closest_coordinates(lat, lon, threshold)] over the rows that
    [SoilData.query.all()] returned. *)
Fixpoint find_closest_coordinates (records : list SoilData)
    (lat0 lon0 threshold : float) : option SoilData :=
  match records with
  | [] => None
  | record :: rest =>
      if near threshold lat0 lon0 record then Some record
      else find_closest_coordinates rest lat0 lon0 threshold
  end.

Definition DEFAULT_THRESHOLD : float := 0.5.

(* ================================================================== *)
(** ** The request handler *)
(* ================================================================== *)

(** An f-string [f"{value}suffix"], kept as its two parts. *)
Record fstring : Type := {
  interpolated : pyval;
  literal : string
}.

Record soil_view : Type := {
  v_nitrogen : fstring;
  v_nitrogen_uncertainty : fstring;
  v_ph : fstring;
  v_moisture : fstring;
  v_cec : fstring;
  v_temperature : fstring;
  v_humidity : fstring
}.

(** The JSON objects the handler can answer with. *)
Inductive body : Type :=
| Found (message : string) (soil_data : soil_view)
        (predictions recommendations : pyval)
| Success (soil_data : soil_view) (recommendations : pyval)
| Error (error : string).

Record response : Type := {
  status : Z;
  json_body : body
}.

(** Lines 120-134. *)
Definition found_response (existing_record : SoilData) : response :=
  {| status := 200;
     json_body :=
       Found "Using existing data from the database."
         {| v_nitrogen := {| interpolated := nitrogen existing_record;
                             literal := " g/kg" |};
            v_nitrogen_uncertainty :=
              {| interpolated := nitrogen_uncertainty existing_record;
                 literal := " " |};
            v_ph := {| interpolated := ph existing_record;
                       literal := " pH" |};
            v_moisture := {| interpolated := moisture existing_record;
                             literal := " cm³/cm³" |};
            v_cec := {| interpolated := cec existing_record;
                        literal := " cmol(c)/kg" |};
            v_temperature := {| interpolated := temperature existing_record;
                                literal := " °C" |};
            v_humidity := {| interpolated := humidity existing_record;
                             literal := " %" |} |}
         (PStr (predictions existing_record))
         (PStr (recommendations existing_record)) |}.

(** [next((layer for layer in soil_data if layer['name'] == name), None)]
    over the items of [soil_data]. *)
Fixpoint find_layer (name : string) (layers : list pyval) : pyres pyval :=
  match layers with
  | [] => Ok PNone
  | layer :: rest =>
      n <- Obj.getitem layer "name" ;;
      if Obj.eq_str n name then Ok layer else find_layer name rest
  end.

Definition next_layer (name : string) (soil_data : pyval) : pyres pyval :=
  layers <- Obj.iter soil_data ;;
  find_layer name layers.

(** [layer['depths'][0]['values']]. *)
Definition depth0_values (layer : pyval) : pyres pyval :=
  depths <- Obj.getitem layer "depths" ;;
  depth <- Obj.getitem0 depths ;;
  Obj.getitem depth "values".

(** [layer['depths'][0]['values'].get('mean') if layer else None]. *)
Definition mean_of (layer : pyval) : pyres pyval :=
  if Obj.truthy layer then
    vs <- depth0_values layer ;;
    Obj.get vs "mean" PNone
  else Ok PNone.

Record measurements : Type := {
  m_nitrogen : pyval;
  m_nitrogen_uncertainty : pyval;
  m_phh2o : pyval;
  m_wv0010 : pyval;
  m_cec : pyval
}.

(** Lines 142-159 of [analyze_soil]: the layers are looked up by name and
    their first depth interval is read. *)
Definition extract_measurements (soil_data : pyval) : pyres measurements :=
  nitrogen_layer <- next_layer "nitrogen" soil_data ;;
  phh2o_layer <- next_layer "phh2o" soil_data ;;
  wv0010_layer <- next_layer "wv0010" soil_data ;;
  cec_layer <- next_layer "cec" soil_data ;;
  nu <- (if Obj.truthy nitrogen_layer then
           nitrogen_values <- depth0_values nitrogen_layer ;;
           nitrogen <- Obj.get nitrogen_values "mean" PNone ;;
           nitrogen_uncertainty <- Obj.get nitrogen_values "uncertainty" (PInt 0) ;;
           Ok (nitrogen, nitrogen_uncertainty)
         else Ok (PNone, PNone)) ;;
  phh2o <- mean_of phh2o_layer ;;
  wv0010 <- mean_of wv0010_layer ;;
  cec <- mean_of cec_layer ;;
  Ok {| m_nitrogen := fst nu; m_nitrogen_uncertainty := snd nu;
        m_phh2o := phh2o; m_wv0010 := wv0010; m_cec := cec |}.

(** [weather_data[0]['day'][field]]. *)
Definition today (weather_data : pyval) (field : string) : pyres pyval :=
  first <- Obj.getitem0 weather_data ;;
  d <- Obj.getitem first "day" ;;
  Obj.getitem d field.

(** Lines 162-180: the keyword arguments of [SoilData(...)] are evaluated
    from top to bottom. *)
Definition new_record (w : env) (lat0 lon0 : float) (m : measurements)
    (weather_data : pyval) : pyres SoilData :=
  temperature <- today weather_data "avgtemp_c" ;;
  humidity <- today weather_data "avghumidity" ;;
  recs <- generate_recommendations (order w)
            (PDict [("nitrogen", m_nitrogen m); ("wv0010", m_wv0010 m);
                    ("phh2o", m_phh2o m); ("cec", m_cec m)])
            weather_data ;;
  Ok {| id := None; lat := lat0; lon := lon0;
        nitrogen := m_nitrogen m;
        nitrogen_uncertainty := m_nitrogen_uncertainty m;
        ph := m_phh2o m; moisture := m_wv0010 m; cec := m_cec m;
        temperature := temperature; humidity := humidity;
        recommendations := join "; " recs;
        predictions := "";
        date_recorded := now_utc (now_at_insert w) |}.

(** Lines 185-197. *)
Definition success_response (m : measurements) (weather_data : pyval)
    (record : SoilData) : pyres response :=
  ph10 <- py_truediv (m_phh2o m) (PInt 10) ;;
  temperature <- today weather_data "avgtemp_c" ;;
  humidity <- today weather_data "avghumidity" ;;
  Ok {| status := 200;
        json_body :=
          Success
            {| v_nitrogen := {| interpolated := m_nitrogen m;
                                literal := " g/kg" |};
               v_nitrogen_uncertainty :=
                 {| interpolated := m_nitrogen_uncertainty m;
                    literal := " " |};
               v_ph := {| interpolated := PFloat ph10; literal := " pH" |};
               v_moisture := {| interpolated := m_wv0010 m;
                                literal := " cm³/cm³" |};
               v_cec := {| interpolated := m_cec m;
                           literal := " cmol(c)/kg" |};
               v_temperature := {| interpolated := temperature;
                                   literal := " °C" |};
               v_humidity := {| interpolated := humidity;
                                literal := " %" |} |}
            (PStr (recommendations record)) |}.

Definition fetch_failed : response :=
  {| status := 500; json_body := Error "Failed to fetch data." |}.

Open Scope req_scope.

(** Lines 136-197 of [analyze_soil]: what happens when no stored record
    is reused. *)
Definition fetch_and_store (w : env) (lat0 lon0 : float) : M response :=
  soil_http <- http_get_soil w lat0 lon0 ;;
  soil_data <- lift (get_soil_data soil_http) ;;
  weather_http <- http_get_weather w lat0 lon0 ;;
  weather_data <- lift (get_weather_data weather_http) ;;
  if negb (Obj.truthy soil_data) || negb (Obj.truthy weather_data) then
    ret fetch_failed
  else
    m <- lift (extract_measurements soil_data) ;;
    record <- lift (new_record w lat0 lon0 m weather_data) ;;
    session_add record ;;
    session_commit ;;
    lift (success_response m weather_data record).

(** Lines 113-116: the age of the stored record, its [date_recorded] read
    as UTC when it carries no [tzinfo]. *)
Definition age (w : env) (existing_record : SoilData) : pyres Z :=
  let date_recorded :=
    match tzinfo (date_recorded existing_record) with
    | None => replace_tzinfo_utc (date_recorded existing_record)
    | Some _ => date_recorded existing_record
    end in
  datetime_sub (now_utc (now_at_lookup w)) date_recorded.

(** [analyze_soil()] for the query [?lat=lat0&lon=lon0]. *)
Definition analyze_soil (w : env) (lat0 lon0 : float) : M response :=
  records <- query_all ;;
  match find_closest_coordinates records lat0 lon0 DEFAULT_THRESHOLD with
  | Some existing_record =>
      a <- lift (age w existing_record) ;;
      if a >? timedelta_days 2 then
        session_delete existing_record ;;
        session_commit ;;
        fetch_and_store w lat0 lon0
      else ret (found_response existing_record)
  | None => fetch_and_store w lat0 lon0
  end.

Close Scope req_scope.

(** One request against the table [table]: the session starts empty and
    what it has not committed is dropped when the request ends. *)
Record outcome : Type := {
  result : pyres response;
  table : list SoilData;
  calls : list http_call
}.

Definition run (handler : M response) (table0 : list SoilData) : outcome :=
  let '(r, st) := handler {| rows := table0; session := []; http_log := [] |} in
  {| result := r; table := rows st; calls := http_log st |}.

Definition serve (w : env) (table0 : list SoilData) (lat0 lon0 : float)
  : outcome :=
  run (analyze_soil w lat0 lon0) table0.

(* ================================================================== *)
(** ** Sample payloads *)
(* ================================================================== *)

Module Sample.

(** A SoilGrids layer with one depth interval. *)
Definition layer (name : string) (mean uncertainty : pyval) : pyval :=
  PDict [("name", PStr name);
         ("unit_measure", PDict [("d_factor", PInt 10)]);
         ("depths",
          PList [PDict [("range", PDict [("top_depth", PInt 0);
                                         ("bottom_depth", PInt 5)]);
                        ("label", PStr "0-5cm");
                        ("values", PDict [("mean", mean);
                                          ("uncertainty", uncertainty)])]])].

Definition soil_json (layers : list pyval) : pyval :=
  PDict [("type", PStr "Feature");
         ("properties", PDict [("layers", PList layers)])].

Definition all_layers : list pyval :=
  [layer "cec" (PInt 152) (PInt 4);
   layer "nitrogen" (PInt 345) (PInt 7);
   layer "phh2o" (PInt 65) (PInt 2);
   layer "wv0010" (PInt 31) (PInt 3)].

(** The same payload without the [cec] layer, and without [nitrogen]. *)
Definition no_cec : list pyval :=
  [layer "nitrogen" (PInt 345) (PInt 7);
   layer "phh2o" (PInt 65) (PInt 2);
   layer "wv0010" (PInt 31) (PInt 3)].

Definition no_nitrogen : list pyval :=
  [layer "cec" (PInt 152) (PInt 4);
   layer "phh2o" (PInt 65) (PInt 2);
   layer "wv0010" (PInt 31) (PInt 3)].

Definition forecast_day (rain wind temp hum : pyval) : pyval :=
  PDict [("date", PStr "2024-10-05");
         ("day", PDict [("avgtemp_c", temp); ("avghumidity", hum);
                        ("daily_chance_of_rain", rain);
                        ("maxwind_kph", wind)])].

Definition forecast : pyval :=
  PList [forecast_day (PInt 80) (PFloat 25) (PFloat 21.5) (PInt 70);
         forecast_day (PInt 40) (PFloat 25) (PFloat 19) (PInt 64)].

Definition weather_json : pyval :=
  PDict [("location", PDict [("name", PStr "Ankara")]);
         ("forecast", PDict [("forecastday", forecast)])].

(** Two days, in microseconds, and a clock reading to start from. *)
Definition T0 : Z := 1728122400000000.

Definition world (soil weather : http_result) (t : Z) : env :=
  {| soil_api := fun _ _ => soil;
     weather_api := fun _ _ => weather;
     now_at_lookup := t;
     now_at_insert := t;
     order := insertion_order |}.

Definition both_up (t : Z) : env :=
  world (HttpResponse 200 (Some (soil_json all_layers)))
        (HttpResponse 200 (Some weather_json)) t.

Definition soil_down (t : Z) : env :=
  world (HttpResponse 503 None) (HttpResponse 200 (Some weather_json)) t.

Definition soil_null (t : Z) : env :=
  world (HttpResponse 200 (Some (soil_json [])))
        (HttpResponse 200 (Some weather_json)) t.

Definition stored (i : Z) (la lo : float) (t : Z) : SoilData :=
  {| id := Some i; lat := la; lon := lo;
     nitrogen := PFloat 120; nitrogen_uncertainty := PFloat 5;
     ph := PFloat 58; moisture := PFloat 30; cec := PFloat 11;
     temperature := PFloat 17; humidity := PFloat 55;
     recommendations := "CEC is within the optimal range.";
     predictions := "";
     date_recorded := {| wall := t; tzinfo := None |} |}.

(** 0.1 as Python reads it: the nearest binary64 value. *)
Definition tenth : float := 0x1.999999999999ap-4.

(** A record stored north of the query point (10, 20): more than half a
    degree away from it, less than half a degree away from
    (10 + 0.1, 20 + 0.1). *)
Definition northern : SoilData := stored 1 10.5625 20 T0.

End Sample.

(* ================================================================== *)
(** ** Notions used in the statements *)
(* ================================================================== *)

(** The absolute differences of latitude and of longitude are both at
    most the threshold, each axis on its own. *)
Definition within (threshold lat0 lon0 : float) (record : SoilData) : Prop :=
  PrimFloat.leb (PrimFloat.abs (PrimFloat.sub (lat record) lat0)) threshold
    = true
  /\ PrimFloat.leb (PrimFloat.abs (PrimFloat.sub (lon record) lon0)) threshold
    = true.

(** When the record was written, as a UTC instant: a [date_recorded]
    without [tzinfo] is read as UTC. *)
Definition recorded_at_utc (r : SoilData) : Z :=
  match tzinfo (date_recorded r) with
  | None => wall (date_recorded r)
  | Some offset => wall (date_recorded r) - offset
  end.

Definition TWO_DAYS : Z := 2 * 24 * 60 * 60 * 1000000.

(** A call is a cache miss when the lookup finds no record, or finds one
    that is more than two days old. *)
Definition cache_miss (w : env) (table0 : list SoilData) (lat0 lon0 : float)
  : Prop :=
  forall r,
    find_closest_coordinates table0 lat0 lon0 DEFAULT_THRESHOLD = Some r ->
    now_at_lookup w - recorded_at_utc r > TWO_DAYS.

(** The table once the lookup is over: without the matched record when
    that one was more than two days old. *)
Definition table_after_lookup (w : env) (table0 : list SoilData)
    (lat0 lon0 : float) : list SoilData :=
  match find_closest_coordinates table0 lat0 lon0 DEFAULT_THRESHOLD with
  | Some r =>
      if now_at_lookup w - recorded_at_utc r >? TWO_DAYS
      then delete_row r table0 else table0
  | None => table0
  end.

(** SoilFetcher fails: the status is not 200, or every value of every
    layer of the payload is null. *)
Definition soil_fetch_fails (r : http_result) : Prop :=
  (exists status_code json,
      r = HttpResponse status_code json /\ status_code <> 200)
  \/ (exists body props soil_data layers,
         r = HttpResponse 200 (Some body)
         /\ Obj.getitem body "properties" = Ok props
         /\ Obj.getitem props "layers" = Ok soil_data
         /\ Obj.iter soil_data = Ok layers
         /\ all_values_none layers = Ok true).

(** SoilFetcher succeeds with the list [layers]: status 200 and a payload
    whose layers are not all null. *)
Definition soil_fetch_succeeds (r : http_result) (layers : list pyval)
  : Prop :=
  exists body props,
    r = HttpResponse 200 (Some body)
    /\ Obj.getitem body "properties" = Ok props
    /\ Obj.getitem props "layers" = Ok (PList layers)
    /\ all_values_none layers = Ok false.

(** WeatherFetcher succeeds with the forecast [weather_data]: status 200
    and a forecast that is not empty. *)
Definition weather_fetch_succeeds (r : http_result) (weather_data : pyval)
  : Prop :=
  exists body forecast,
    r = HttpResponse 200 (Some body)
    /\ Obj.getitem body "forecast" = Ok forecast
    /\ Obj.getitem forecast "forecastday" = Ok weather_data
    /\ Obj.truthy weather_data = true.

(** No layer of the payload carries the name. *)
Definition layer_absent (name : string) (layers : list pyval) : Prop :=
  Forall (fun layer => exists n, Obj.getitem layer "name" = Ok n
                                 /\ Obj.eq_str n name = false) layers.

(** A layer as SoilGrids sends it: a dict with a name and a list of depth
    intervals whose first one carries a dict of values. *)
Definition well_formed_layer (layer : pyval) : Prop :=
  (exists n, Obj.getitem layer "name" = Ok n)
  /\ (exists vs, depth0_values layer = Ok (PDict vs)).

(** The measurement extracted for a layer name. *)
Definition measurement (m : measurements) (name : string) : pyval :=
  if String.eqb name "nitrogen" then m_nitrogen m
  else if String.eqb name "phh2o" then m_phh2o m
  else if String.eqb name "wv0010" then m_wv0010 m
  else if String.eqb name "cec" then m_cec m
  else PNone.

(** The two outgoing calls of a request that fetches. *)
Definition both_calls (lat0 lon0 : float) : list http_call :=
  [GetSoil lat0 lon0; GetWeather lat0 lon0].

(** The pH advisories among the strings the engine returned. *)
Definition is_ph_advisory (s : string) : bool :=
  String.eqb s MSG_PH_OPTIMAL || String.eqb s MSG_PH_LIME
  || String.eqb s MSG_PH_SULFUR.

Definition ph_advisories (l : list string) : list string :=
  filter is_ph_advisory l.

(** The value a dict gives for a key, [default] when the key is missing. *)
Definition value_or (d : list (string * pyval)) (key : string)
    (default : pyval) : pyval :=
  match Obj.assoc key d with
  | Some v => v
  | None => default
  end.

Definition is_number (v : pyval) : Prop := as_num v <> None.

(** The dict that [analyze_soil] hands to [generate_recommendations]. *)
Definition engine_input (nitrogen wv0010 phh2o cec : pyval) : pyval :=
  PDict [("nitrogen", nitrogen); ("wv0010", wv0010);
         ("phh2o", phh2o); ("cec", cec)].

(** The four keys the engine reads. *)
Definition measurement_key (k : string) : Prop :=
  k = "nitrogen" \/ k = "wv0010" \/ k = "phh2o" \/ k = "cec".

(** Lines 71-84 with the outcomes of the three comparisons named: the
    set once the soil rules have run. *)
Definition soil_rules (low_n dry : bool) (ph : float) (cec_ok : bool)
  : list string :=
  let recommendations := [] in
  let recommendations :=
    if low_n then set_add MSG_NITROGEN recommendations
    else recommendations in
  let recommendations :=
    if dry then set_add MSG_MOISTURE recommendations
    else recommendations in
  let recommendations := ph_rule ph recommendations in
  if cec_ok then set_add MSG_CEC recommendations else recommendations.

(** The six advisories that do not depend on the forecast. *)
Definition SOIL_MESSAGES : list string :=
  [MSG_NITROGEN; MSG_MOISTURE; MSG_PH_OPTIMAL; MSG_PH_LIME; MSG_PH_SULFUR;
   MSG_CEC].

(** Every value of the layer is [None]. *)
Definition layer_all_null (layer : pyval) : bool :=
  match layer with
  | PDict d => forallb is_none (map snd d)
  | _ => false
  end.

Definition is_dict (v : pyval) : Prop := exists d, v = PDict d.

(** The floats that are not finite. *)
Definition NON_FINITE : list float :=
  [PrimFloat.nan; PrimFloat.infinity; PrimFloat.neg_infinity].

(** The response is the success body. *)
Definition is_success (r : pyres response) : Prop :=
  exists resp sv recs, r = Ok resp /\ json_body resp = Success sv recs.

(* ================================================================== *)
(** ** Float order facts *)
(* ================================================================== *)

Section FloatOrder.

Lemma SFcompare_Lt_flip (x y : spec_float) :
  SFcompare x y = Some Lt -> SFcompare y x = Some Gt.
Proof.
  destruct x as [sx | sx | | sx mx ex], y as [sy | sy | | sy my ey];
    simpl; try destruct sx; try destruct sy; simpl;
    try discriminate; try reflexivity;
    pose proof (Z.compare_antisym ex ey) as Hz;
    pose proof (Pos.compare_antisym mx my) as Hp;
    unfold Pos.compare in Hp;
    destruct (ex ?= ey)%Z; simpl in Hz; rewrite Hz;
    try discriminate; try reflexivity;
    destruct (Pos.compare_cont Eq mx my); simpl in Hp; rewrite Hp;
    simpl; try discriminate; reflexivity.
Qed.

(** A float strictly above [y] is not at most [y]. *)
Lemma ltb_not_leb (x y : float) :
  PrimFloat.ltb y x = true -> PrimFloat.leb x y = false.
Proof.
  rewrite ltb_spec, leb_spec. unfold SFltb, SFleb.
  destruct (SFcompare (Prim2SF y) (Prim2SF x)) as [[ | | ] | ] eqn:E;
    try discriminate.
  intros _. now rewrite (SFcompare_Lt_flip _ _ E).
Qed.

End FloatOrder.

(* ================================================================== *)
(** ** The proximity lookup returns the first record within the threshold *)
(* ================================================================== *)

Section Proximity.

Variables (threshold lat0 lon0 : float).

Lemma near_within (r : SoilData) :
  near threshold lat0 lon0 r = true <-> within threshold lat0 lon0 r.
Proof. unfold near, within. apply andb_true_iff. Qed.

Lemma near_false_iff (r : SoilData) :
  near threshold lat0 lon0 r = false <-> ~ within threshold lat0 lon0 r.
Proof.
  rewrite <- near_within. destruct (near threshold lat0 lon0 r);
    split; intros H; try discriminate; try reflexivity.
  now elim H.
Qed.

Lemma find_some_split (records : list SoilData) (r : SoilData) :
  find_closest_coordinates records lat0 lon0 threshold = Some r ->
  exists before after,
    records = (before ++ r :: after)%list
    /\ within threshold lat0 lon0 r
    /\ Forall (fun x => ~ within threshold lat0 lon0 x) before.
Proof.
  induction records as [| x xs IH]; simpl; [discriminate |].
  destruct (near threshold lat0 lon0 x) eqn:Hx.
  - intros [= <-]. exists [], xs.
    split; [reflexivity | split; [now apply near_within | constructor]].
  - intros H. destruct (IH H) as (before & after & -> & Hr & Hb).
    exists (x :: before), after.
    split; [reflexivity | split; [exact Hr |]].
    constructor; [now apply near_false_iff | exact Hb].
Qed.

Lemma find_split_some (before after : list SoilData) (r : SoilData) :
  within threshold lat0 lon0 r ->
  Forall (fun x => ~ within threshold lat0 lon0 x) before ->
  find_closest_coordinates (before ++ r :: after) lat0 lon0 threshold = Some r.
Proof.
  intros Hr. induction 1 as [| x xs Hx _ IH]; simpl.
  - apply near_within in Hr. now rewrite Hr.
  - apply near_false_iff in Hx. now rewrite Hx.
Qed.

Lemma find_none_iff (records : list SoilData) :
  find_closest_coordinates records lat0 lon0 threshold = None
  <-> Forall (fun x => ~ within threshold lat0 lon0 x) records.
Proof.
  induction records as [| x xs IH]; simpl.
  - split; [constructor | reflexivity].
  - destruct (near threshold lat0 lon0 x) eqn:Hx.
    + split; [discriminate |]. intros H. inversion H as [| ? ? Hn _]; subst.
      apply near_within in Hx. now elim Hn.
    + rewrite IH. split; intros H.
      * constructor; [now apply near_false_iff | exact H].
      * now inversion H.
Qed.

End Proximity.

(** C6. [find_closest_coordinates] with its default threshold 0.5 returns
    the first record, in the order of the stored sequence, whose absolute
    latitude difference and absolute longitude difference from the query
    are both at most 0.5; it returns nothing exactly when no record passes
    both tests.  A record whose two differences are exactly 0.5 passes, a
    record whose difference on either axis is above 0.5 is never returned. *)
Theorem find_closest_coordinates_first_match
    (records : list SoilData) (lat0 lon0 : float) :
  (forall r,
      find_closest_coordinates records lat0 lon0 DEFAULT_THRESHOLD = Some r
      <-> exists before after,
            records = (before ++ r :: after)%list
            /\ within 0.5 lat0 lon0 r
            /\ Forall (fun x => ~ within 0.5 lat0 lon0 x) before)
  /\ (find_closest_coordinates records lat0 lon0 DEFAULT_THRESHOLD = None
      <-> Forall (fun x => ~ within 0.5 lat0 lon0 x) records)
  /\ (forall before r after,
         records = (before ++ r :: after)%list ->
         Forall (fun x => ~ within 0.5 lat0 lon0 x) before ->
         PrimFloat.abs (lat r - lat0) = 0.5%float ->
         PrimFloat.abs (lon r - lon0) = 0.5%float ->
         find_closest_coordinates records lat0 lon0 DEFAULT_THRESHOLD = Some r)
  /\ (forall r,
         (0.5 <? PrimFloat.abs (lat r - lat0))%float = true
         \/ (0.5 <? PrimFloat.abs (lon r - lon0))%float = true ->
         find_closest_coordinates records lat0 lon0 DEFAULT_THRESHOLD <> Some r).
Proof.
  unfold DEFAULT_THRESHOLD. split; [| split; [| split]].
  - intros r. split.
    + apply find_some_split.
    + intros (before & after & -> & Hr & Hb). now apply find_split_some.
  - apply find_none_iff.
  - intros before r after -> Hb Hlat Hlon. apply find_split_some; trivial.
    unfold within. rewrite Hlat, Hlon. split; reflexivity.
  - intros r Hfar Hfound. apply find_some_split in Hfound.
    destruct Hfound as (_ & _ & _ & [Hlat Hlon] & _).
    destruct Hfar as [H | H]; apply ltb_not_leb in H; congruence.
Qed.

(** A stored record half a degree away on both axes is found; one step of
    the float grid further on the longitude it is not. *)
Lemma find_closest_coordinates_first_match_witness :
  find_closest_coordinates [Sample.stored 1 10.5 20.5 Sample.T0] 10 20
    DEFAULT_THRESHOLD = Some (Sample.stored 1 10.5 20.5 Sample.T0)
  /\ find_closest_coordinates
       [Sample.stored 1 10.5 (PrimFloat.next_up 20.5) Sample.T0] 10 20
       DEFAULT_THRESHOLD
     <> Some (Sample.stored 1 10.5 (PrimFloat.next_up 20.5) Sample.T0).
Proof.
  split.
  - apply (proj1 (proj2 (proj2 (find_closest_coordinates_first_match
             [Sample.stored 1 10.5 20.5 Sample.T0] 10 20)))
             [] (Sample.stored 1 10.5 20.5 Sample.T0) []);
      [reflexivity | constructor | reflexivity | reflexivity].
  - apply (proj2 (proj2 (proj2 (find_closest_coordinates_first_match
             [Sample.stored 1 10.5 (PrimFloat.next_up 20.5) Sample.T0]
             10 20)))).
    right. reflexivity.
Defined.

(* ================================================================== *)
(** ** The recommendation engine *)
(* ================================================================== *)

(** Case analysis on the head of a chain of binds in a hypothesis that
    says the chain returned. *)
Ltac bind_ok H :=
  match type of H with
  | bind ?c _ = Ok _ =>
      let E := fresh "E" in
      destruct c eqn:E; simpl in H; [| discriminate H]
  end.

Lemma get_dict (d : list (string * pyval)) (key : string) (default : pyval) :
  Obj.get (PDict d) key default = Ok (value_or d key default).
Proof. unfold Obj.get, value_or. now destruct (Obj.assoc key d). Qed.

Section Advisories.

Lemma not_in_when_filtered (P : string -> bool) (x : string) (s : list string) :
  filter P s = [] -> P x = true -> existsb (String.eqb x) s = false.
Proof.
  intros Hs Hx. induction s as [| y ys IH]; simpl in *; [reflexivity |].
  destruct (P y) eqn:Hy; [discriminate |].
  rewrite (IH Hs), orb_false_r.
  destruct (String.eqb_spec x y) as [-> |]; [congruence | reflexivity].
Qed.

Lemma filter_set_add_other (P : string -> bool) (x : string) (s : list string) :
  P x = false -> filter P (set_add x s) = filter P s.
Proof.
  intros Hx. unfold set_add. destruct (existsb (String.eqb x) s); trivial.
  rewrite filter_app. simpl. rewrite Hx. apply app_nil_r.
Qed.

Lemma filter_set_add_new (P : string -> bool) (x : string) (s : list string) :
  P x = true -> filter P s = [] -> filter P (set_add x s) = [x].
Proof.
  intros Hx Hs. unfold set_add. rewrite (not_in_when_filtered P x s Hs Hx).
  rewrite filter_app, Hs. simpl. now rewrite Hx.
Qed.

Lemma ph_rule_advisories (ph : float) (s : list string) :
  ph_advisories s = [] -> ph_advisories (ph_rule ph s) = ph_rule ph [].
Proof.
  intros Hs. unfold ph_rule, ph_advisories in *.
  repeat match goal with
         | |- context [if ?b then _ else _] => destruct b
         end;
    trivial; now apply filter_set_add_new.
Qed.

Lemma msg_rain_not_ph (f : float) : is_ph_advisory (msg_rain f) = false.
Proof. reflexivity. Qed.

Lemma msg_wind_not_ph (f : float) : is_ph_advisory (msg_wind f) = false.
Proof. reflexivity. Qed.

Lemma weather_rules_advisories (wd : pyval) (s s' : list string) :
  weather_rules wd s = Ok s' -> ph_advisories s' = ph_advisories s.
Proof.
  unfold weather_rules. destruct (Obj.truthy wd); [| now intros [= <-]].
  intros H. bind_ok H. bind_ok H. injection H as <-. unfold ph_advisories.
  repeat match goal with
         | |- context [if ?b then _ else _] => destruct b
         end;
    rewrite ?filter_set_add_other; trivial;
    auto using msg_rain_not_ph, msg_wind_not_ph.
Qed.

Lemma permutation_filter {A} (P : A -> bool) (l l' : list A) :
  Permutation l l' -> Permutation (filter P l) (filter P l').
Proof.
  induction 1 as [| x l l' _ IH | x y l | l l' l'' _ IH1 _ IH2]; simpl.
  - constructor.
  - destruct (P x); [now constructor | exact IH].
  - destruct (P x), (P y); try apply Permutation_refl. apply perm_swap.
  - now apply Permutation_trans with (filter P l').
Qed.

Lemma permutation_short {A} (l l' : list A) :
  Permutation l l' -> (List.length l' <= 1)%nat -> l = l'.
Proof.
  intros Hp Hl. destruct l' as [| x [| y l']]; simpl in Hl; [| | lia].
  - now apply Permutation_nil, Permutation_sym.
  - now apply Permutation_length_1_inv, Permutation_sym.
Qed.

Lemma ph_rule_short (ph : float) : (List.length (ph_rule ph []) <= 1)%nat.
Proof.
  unfold ph_rule.
  repeat match goal with
         | |- context [if ?b then _ else _] => destruct b
         end; simpl; lia.
Qed.

(** What a returned list says about the pH: the engine divided [phh2o] by
    ten and the pH advisories of the list are those of the pH branches. *)
Lemma generate_recommendations_ph (order : set_order)
    (d : list (string * pyval)) (wd : pyval) (l : list string) :
  generate_recommendations order (PDict d) wd = Ok l ->
  exists ph,
    py_truediv (value_or d "phh2o" (PInt 0)) (PInt 10) = Ok ph
    /\ ph_advisories l = ph_rule ph [].
Proof.
  unfold generate_recommendations. rewrite !get_dict. simpl.
  intros H. bind_ok H. rename a into ph. exists ph. split; [reflexivity |].
  bind_ok H. bind_ok H. bind_ok H. bind_ok H. injection H as <-.
  apply weather_rules_advisories in E3.
  apply permutation_short; [| apply ph_rule_short].
  unfold ph_advisories in *.
  eapply Permutation_trans;
    [apply permutation_filter, list_of_set_perm |].
  rewrite E3.
  match goal with
  | |- Permutation ?x ?y => replace x with y; [apply Permutation_refl |]
  end.
  symmetry.
  destruct a1; rewrite ?filter_set_add_other by reflexivity;
    apply ph_rule_advisories; unfold ph_advisories;
    destruct a0, a; rewrite ?filter_set_add_other by reflexivity;
    reflexivity.
Qed.

End Advisories.

Section Engine.

Variable order : set_order.

Lemma generate_recommendations_dict (soil_data wd : pyval) (l : list string) :
  generate_recommendations order soil_data wd = Ok l ->
  exists d, soil_data = PDict d.
Proof.
  destruct soil_data; try discriminate. intros _. now eexists.
Qed.

Lemma generate_recommendations_phraw (soil_data wd v : pyval)
    (l : list string) :
  generate_recommendations order soil_data wd = Ok l ->
  Obj.get soil_data "phh2o" (PInt 0) = Ok v ->
  exists ph, py_truediv v (PInt 10) = Ok ph /\ ph_advisories l = ph_rule ph [].
Proof.
  intros H Hv. destruct (generate_recommendations_dict _ _ _ H) as [d ->].
  rewrite get_dict in Hv. injection Hv as <-.
  exact (generate_recommendations_ph order d wd l H).
Qed.

Lemma no_ph_advisory (l : list string) :
  ph_advisories l = [] ->
  ~ In MSG_PH_OPTIMAL l /\ ~ In MSG_PH_LIME l /\ ~ In MSG_PH_SULFUR l.
Proof.
  intros H.
  assert (forall x, is_ph_advisory x = true -> ~ In x l) as Hno.
  { intros x Hx Hin.
    assert (In x (ph_advisories l)) as Hf by (apply filter_In; auto).
    now rewrite H in Hf. }
  repeat split; apply Hno; reflexivity.
Qed.

(** With numbers for the four measurements and no forecast the engine
    returns, unless the division of [phh2o] by ten overflows. *)
Lemma generate_recommendations_returns (nitrogen wv0010 phh2o cec : pyval)
    (ph : float) :
  is_number nitrogen -> is_number wv0010 -> is_number cec ->
  py_truediv phh2o (PInt 10) = Ok ph ->
  exists l,
    generate_recommendations order
      (engine_input nitrogen wv0010 phh2o cec) PNone = Ok l.
Proof.
  unfold is_number, generate_recommendations, engine_input.
  intros Hn Hw Hc Hph. rewrite !get_dict. cbn [value_or Obj.assoc String.eqb Ascii.eqb Bool.eqb bind].
  rewrite Hph. cbn [bind]. unfold py_lt, py_ge.
  destruct (as_num nitrogen); [| contradiction].
  destruct (as_num wv0010); [| contradiction].
  destruct (as_num cec); [| contradiction].
  cbn. eexists. reflexivity.
Qed.

(** Dividing by the literal 10 raises nothing but [TypeError] (the operand
    is not a number) or [OverflowError] (an int beyond the float range). *)
Lemma truediv_10_raises (v : pyval) (e : exn) :
  py_truediv v (PInt 10) = Raise e -> e = TypeError \/ e = OverflowError.
Proof.
  unfold py_truediv. destruct (as_num v) as [[z | f] |]; simpl.
  - unfold Z_truediv. simpl (10 =? 0).  cbv iota.
    match goal with
    | |- (if ?b then _ else _) = _ -> _ => destruct b
    end; [intros [= <-]; now right | discriminate].
  - vm_compute. discriminate.
  - intros [= <-]. now left.
Qed.

End Engine.

(** The engine on the sample forecast: chances of rain 80 and 40, winds of
    25 kph on both days. *)
Example weather_aggregation :
  generate_recommendations insertion_order
    (engine_input (PInt 150) (PFloat 0.5) (PInt 65) (PInt 5)) Sample.forecast
  = Ok [MSG_PH_OPTIMAL;
        "High average chance of rain (60.0%). Delay irrigation.";
        "Strong winds expected (25.0 kph). Protect crops."].
Proof. reflexivity. Qed.

Example nitrogen_rule :
  generate_recommendations insertion_order
    (engine_input (PInt 50) (PFloat 0.5) (PInt 65) (PInt 5)) PNone
  = Ok [MSG_NITROGEN; MSG_PH_OPTIMAL]
  /\ generate_recommendations insertion_order
       (engine_input (PInt 150) (PFloat 0.5) (PInt 65) (PInt 5)) PNone
     = Ok [MSG_PH_OPTIMAL].
Proof. split; reflexivity. Qed.

(** C8. Whatever the engine is given, a list it returns holds at most one
    of the three pH advisories.  With [phh2o] 65 the only pH advisory is the
    optimal-range one, with 50 the lime one, with 80 the sulfur one; and
    with numbers for the other measurements and no forecast the engine does
    return for these three values. *)
Theorem ph_advisory_exclusive (order : set_order) :
  (forall soil_data wd l,
      generate_recommendations order soil_data wd = Ok l ->
      (List.length (ph_advisories l) <= 1)%nat)
  /\ (forall soil_data wd l v,
         generate_recommendations order soil_data wd = Ok l ->
         Obj.get soil_data "phh2o" (PInt 0) = Ok v ->
         (v = PInt 65 \/ v = PFloat 65 ->
          ph_advisories l = [MSG_PH_OPTIMAL])
         /\ (v = PInt 50 \/ v = PFloat 50 ->
             ph_advisories l = [MSG_PH_LIME])
         /\ (v = PInt 80 \/ v = PFloat 80 ->
             ph_advisories l = [MSG_PH_SULFUR]))
  /\ (forall nitrogen wv0010 cec v,
         is_number nitrogen -> is_number wv0010 -> is_number cec ->
         In v [PInt 65; PInt 50; PInt 80] ->
         exists l,
           generate_recommendations order
             (engine_input nitrogen wv0010 v cec) PNone = Ok l).
Proof.
  split; [| split].
  - intros soil_data wd l H.
    destruct soil_data; try discriminate.
    destruct (generate_recommendations_ph _ _ _ _ H) as (ph & _ & ->).
    apply ph_rule_short.
  - intros soil_data wd l v H Hv.
    destruct (generate_recommendations_phraw _ _ _ _ _ H Hv)
      as (ph & Hph & ->).
    repeat split; intros [-> | ->]; vm_compute in Hph;
      injection Hph as <-; reflexivity.
  - intros nitrogen wv0010 cec v Hn Hw Hc Hv.
    simpl in Hv. destruct Hv as [<- | [<- | [<- | []]]];
      eapply generate_recommendations_returns; trivial; reflexivity.
Qed.

Lemma ph_advisory_exclusive_witness :
  ph_advisories
    ["Consider adding nitrogen-based fertilizers.";
     "Soil pH is within the optimal range."]
  = [MSG_PH_OPTIMAL].
Proof.
  refine (proj1 (proj1 (proj2 (ph_advisory_exclusive insertion_order))
            (engine_input (PInt 50) (PFloat 0.5) (PInt 65) (PInt 5)) PNone
            _ (PInt 65) _ _) _).
  - reflexivity.
  - reflexivity.
  - left. reflexivity.
Defined.

(** C10. At the two boundary values the engine gives no pH advisory: with
    [phh2o] exactly 60 (pH 6.0) or exactly 75 (pH 7.5) a returned list
    holds none of the optimal, lime and sulfur messages; and the engine
    does return for these values when the other measurements are numbers
    and there is no forecast. *)
Theorem ph_boundary_no_advisory (order : set_order) :
  (forall soil_data wd l v,
      generate_recommendations order soil_data wd = Ok l ->
      Obj.get soil_data "phh2o" (PInt 0) = Ok v ->
      In v [PInt 60; PFloat 60; PInt 75; PFloat 75] ->
      ~ In MSG_PH_OPTIMAL l /\ ~ In MSG_PH_LIME l /\ ~ In MSG_PH_SULFUR l)
  /\ (forall nitrogen wv0010 cec v,
         is_number nitrogen -> is_number wv0010 -> is_number cec ->
         In v [PInt 60; PInt 75] ->
         exists l,
           generate_recommendations order
             (engine_input nitrogen wv0010 v cec) PNone = Ok l).
Proof.
  split.
  - intros soil_data wd l v H Hv Hin.
    destruct (generate_recommendations_phraw _ _ _ _ _ H Hv)
      as (ph & Hph & Hl).
    apply no_ph_advisory. rewrite Hl. simpl in Hin.
    destruct Hin as [<- | [<- | [<- | [<- | []]]]]; vm_compute in Hph;
      injection Hph as <-; reflexivity.
  - intros nitrogen wv0010 cec v Hn Hw Hc Hv.
    simpl in Hv. destruct Hv as [<- | [<- | []]];
      eapply generate_recommendations_returns; trivial; reflexivity.
Qed.

Lemma ph_boundary_no_advisory_witness :
  ~ In MSG_PH_OPTIMAL [MSG_MOISTURE; MSG_CEC]
  /\ ~ In MSG_PH_LIME [MSG_MOISTURE; MSG_CEC]
  /\ ~ In MSG_PH_SULFUR [MSG_MOISTURE; MSG_CEC].
Proof.
  refine (proj1 (ph_boundary_no_advisory insertion_order)
            (engine_input (PInt 150) (PFloat 0.125) (PInt 60) (PInt 15))
            (PList []) _ (PInt 60) _ _ _).
  - reflexivity.
  - reflexivity.
  - left. reflexivity.
Defined.

(* ================================================================== *)
(** ** The request handler, stage by stage *)
(* ================================================================== *)

Section Handler.

Variables (w : env) (lat0 lon0 : float).

Lemma age_ok (r : SoilData) :
  age w r = Ok (now_at_lookup w - recorded_at_utc r).
Proof.
  unfold age, recorded_at_utc, datetime_sub.
  destruct (tzinfo (date_recorded r)) eqn:E; simpl; try rewrite E;
    f_equal; lia.
Qed.

Lemma two_days : timedelta_days 2 = TWO_DAYS.
Proof. reflexivity. Qed.

(** A record found and at most two days old is answered from the table:
    nothing is fetched and the table stays as it is. *)
Lemma serve_fresh (table0 : list SoilData) (r : SoilData) :
  find_closest_coordinates table0 lat0 lon0 DEFAULT_THRESHOLD = Some r ->
  now_at_lookup w - recorded_at_utc r <= TWO_DAYS ->
  serve w table0 lat0 lon0
  = {| result := Ok (found_response r); table := table0; calls := [] |}.
Proof.
  intros Hfind Hage. unfold serve, run, analyze_soil, mbind, query_all, lift.
  simpl. rewrite Hfind, age_ok, two_days.
  destruct (Z.gtb_spec (now_at_lookup w - recorded_at_utc r) TWO_DAYS);
    [lia | reflexivity].
Qed.

(** A record found and more than two days old is deleted, and the request
    goes on as if nothing had been found. *)
Lemma serve_stale (table0 : list SoilData) (r : SoilData) :
  find_closest_coordinates table0 lat0 lon0 DEFAULT_THRESHOLD = Some r ->
  now_at_lookup w - recorded_at_utc r > TWO_DAYS ->
  serve w table0 lat0 lon0
  = run (fetch_and_store w lat0 lon0) (delete_row r table0).
Proof.
  intros Hfind Hage. unfold serve, run, analyze_soil, mbind, query_all, lift.
  simpl. rewrite Hfind, age_ok, two_days.
  destruct (Z.gtb_spec (now_at_lookup w - recorded_at_utc r) TWO_DAYS);
    [reflexivity | lia].
Qed.

Lemma serve_absent (table0 : list SoilData) :
  find_closest_coordinates table0 lat0 lon0 DEFAULT_THRESHOLD = None ->
  serve w table0 lat0 lon0 = run (fetch_and_store w lat0 lon0) table0.
Proof.
  intros Hfind. unfold serve, run, analyze_soil, mbind, query_all.
  simpl. now rewrite Hfind.
Qed.

Lemma serve_miss (table0 : list SoilData) :
  cache_miss w table0 lat0 lon0 ->
  serve w table0 lat0 lon0
  = run (fetch_and_store w lat0 lon0) (table_after_lookup w table0 lat0 lon0).
Proof.
  unfold cache_miss, table_after_lookup. intros Hmiss.
  destruct (find_closest_coordinates table0 lat0 lon0 DEFAULT_THRESHOLD)
    as [r |] eqn:Hfind.
  - specialize (Hmiss r eq_refl).
    destruct (Z.gtb_spec (now_at_lookup w - recorded_at_utc r) TWO_DAYS);
      [| lia].
    now apply serve_stale.
  - now apply serve_absent.
Qed.

(** The fetch stage, written out: which outcome each answer of the two
    services leads to. *)
Lemma fetch_and_store_run (table0 : list SoilData) :
  run (fetch_and_store w lat0 lon0) table0
  = match get_soil_data (soil_api w lat0 lon0) with
    | Raise e =>
        {| result := Raise e; table := table0;
           calls := [GetSoil lat0 lon0] |}
    | Ok soil_data =>
        match get_weather_data (weather_api w lat0 lon0) with
        | Raise e =>
            {| result := Raise e; table := table0;
               calls := both_calls lat0 lon0 |}
        | Ok weather_data =>
            if negb (Obj.truthy soil_data) || negb (Obj.truthy weather_data)
            then {| result := Ok fetch_failed; table := table0;
                    calls := both_calls lat0 lon0 |}
            else
              match extract_measurements soil_data with
              | Raise e =>
                  {| result := Raise e; table := table0;
                     calls := both_calls lat0 lon0 |}
              | Ok m =>
                  match new_record w lat0 lon0 m weather_data with
                  | Raise e =>
                      {| result := Raise e; table := table0;
                         calls := both_calls lat0 lon0 |}
                  | Ok record =>
                      if not_null record then
                        {| result := success_response m weather_data record;
                           table := (table0 ++
                                     [with_id (next_id table0) record])%list;
                           calls := both_calls lat0 lon0 |}
                      else
                        {| result := Raise DBError; table := table0;
                           calls := both_calls lat0 lon0 |}
                  end
              end
        end
    end.
Proof.
  unfold run, fetch_and_store, mbind, http_get_soil, http_get_weather, lift,
    ret, session_add, session_commit, both_calls.
  simpl.
  destruct (get_soil_data (soil_api w lat0 lon0)) as [soil_data | e];
    [| reflexivity].
  destruct (get_weather_data (weather_api w lat0 lon0))
    as [weather_data | e]; [| reflexivity].
  destruct (negb (Obj.truthy soil_data) || negb (Obj.truthy weather_data));
    [reflexivity |].
  destruct (extract_measurements soil_data) as [m | e]; [| reflexivity].
  destruct (new_record w lat0 lon0 m weather_data) as [record | e];
    [| reflexivity].
  simpl. destruct (not_null record); reflexivity.
Qed.

End Handler.

Lemma fetch_and_store_calls (w : env) (lat0 lon0 : float)
    (table0 : list SoilData) :
  calls (run (fetch_and_store w lat0 lon0) table0) <> [].
Proof.
  rewrite fetch_and_store_run.
  repeat match goal with
         | |- context [match ?c with _ => _ end] => destruct c
         end; discriminate.
Qed.

(** C7. A record matched by the lookup is answered as it is exactly when
    the clock reading minus its UTC recording time is at most two days; at
    exactly two days it still is.  When the difference is above two days
    the record is deleted and the request goes on as a miss, on the table
    without that record. *)
Theorem freshness_boundary (w : env) (table0 : list SoilData)
    (lat0 lon0 : float) (r : SoilData) :
  find_closest_coordinates table0 lat0 lon0 DEFAULT_THRESHOLD = Some r ->
  (now_at_lookup w - recorded_at_utc r <= TWO_DAYS
   <-> serve w table0 lat0 lon0
       = {| result := Ok (found_response r); table := table0; calls := [] |})
  /\ (now_at_lookup w - recorded_at_utc r = TWO_DAYS ->
      serve w table0 lat0 lon0
      = {| result := Ok (found_response r); table := table0; calls := [] |})
  /\ (now_at_lookup w - recorded_at_utc r > TWO_DAYS ->
      serve w table0 lat0 lon0
      = run (fetch_and_store w lat0 lon0) (delete_row r table0)
      /\ forall x, In x (delete_row r table0) -> same_id x r = false).
Proof.
  intros Hfind. split; [split | split].
  - now apply serve_fresh.
  - intros Hserve.
    destruct (Z_le_gt_dec (now_at_lookup w - recorded_at_utc r) TWO_DAYS)
      as [Hle | Hgt]; [exact Hle | exfalso].
    rewrite (serve_stale w lat0 lon0 table0 r Hfind Hgt) in Hserve.
    apply (fetch_and_store_calls w lat0 lon0 (delete_row r table0)).
    now rewrite Hserve.
  - intros Heq. apply serve_fresh; [exact Hfind | lia].
  - intros Hgt. split; [now apply serve_stale |].
    intros x Hx. apply filter_In in Hx. now apply negb_true_iff.
Qed.

(** A record written exactly two days before the request is reused; one
    microsecond later it is deleted and the services are queried. *)
Lemma freshness_boundary_witness :
  serve (Sample.both_up (Sample.T0 + TWO_DAYS))
    [Sample.stored 1 40 33 Sample.T0] 39.875 32.75
  = {| result := Ok (found_response (Sample.stored 1 40 33 Sample.T0));
       table := [Sample.stored 1 40 33 Sample.T0];
       calls := [] |}
  /\ serve (Sample.both_up (Sample.T0 + TWO_DAYS + 1))
       [Sample.stored 1 40 33 Sample.T0] 39.875 32.75
     = run (fetch_and_store (Sample.both_up (Sample.T0 + TWO_DAYS + 1))
              39.875 32.75) [].
Proof.
  split.
  - apply (proj1 (proj2 (freshness_boundary
             (Sample.both_up (Sample.T0 + TWO_DAYS))
             [Sample.stored 1 40 33 Sample.T0] 39.875 32.75
             (Sample.stored 1 40 33 Sample.T0) eq_refl))).
    reflexivity.
  - apply (proj2 (proj2 (freshness_boundary
             (Sample.both_up (Sample.T0 + TWO_DAYS + 1))
             [Sample.stored 1 40 33 Sample.T0] 39.875 32.75
             (Sample.stored 1 40 33 Sample.T0) eq_refl))).
    reflexivity.
Defined.

(* ================================================================== *)
(** ** A failing soil service *)
(* ================================================================== *)

Lemma get_soil_data_fails (r : http_result) :
  soil_fetch_fails r ->
  exists msg, get_soil_data r = Ok (PDict [("error", PStr msg)]).
Proof.
  intros [(status_code & json & -> & Hstatus)
         | (body & props & soil_data & layers & -> & Hb & Hp & Hi & Hn)];
    simpl.
  - destruct (Z.eqb_spec status_code 200); [contradiction |].
    now eexists.
  - rewrite Hb. simpl. rewrite Hp. simpl. rewrite Hi. simpl. rewrite Hn.
    simpl. now eexists.
Qed.

(** The error dict is not empty, and looking for a layer in it raises:
    iterating over a dict gives its keys, and a string has no ['name']. *)
Lemma error_dict_truthy (msg : string) :
  Obj.truthy (PDict [("error", PStr msg)]) = true.
Proof. reflexivity. Qed.

Lemma extract_error_dict (msg : string) :
  extract_measurements (PDict [("error", PStr msg)]) = Raise TypeError.
Proof. reflexivity. Qed.

(** C1. On a cache miss on which the soil service fails (a status other
    than 200, or a payload whose values are all null), nothing is added to
    the table.  The answer is the fetch-failure response only when the
    forecast is missing as well; with a forecast at hand the handler
    raises [TypeError] while it searches the error dict for layers. *)
Theorem soil_failure_on_miss (w : env) (table0 : list SoilData)
    (lat0 lon0 : float) :
  cache_miss w table0 lat0 lon0 ->
  soil_fetch_fails (soil_api w lat0 lon0) ->
  table (serve w table0 lat0 lon0) = table_after_lookup w table0 lat0 lon0
  /\ match get_weather_data (weather_api w lat0 lon0) with
     | Ok weather_data =>
         if Obj.truthy weather_data
         then result (serve w table0 lat0 lon0) = Raise TypeError
         else result (serve w table0 lat0 lon0) = Ok fetch_failed
     | Raise e => result (serve w table0 lat0 lon0) = Raise e
     end.
Proof.
  intros Hmiss Hfail. rewrite (serve_miss w lat0 lon0 table0 Hmiss).
  rewrite fetch_and_store_run.
  destruct (get_soil_data_fails _ Hfail) as [msg ->].
  destruct (get_weather_data (weather_api w lat0 lon0))
    as [weather_data | e]; [| now split].
  rewrite error_dict_truthy, extract_error_dict. simpl.
  destruct (Obj.truthy weather_data); now split.
Qed.

(** The soil service answers 503, or answers 200 with no layer at all, and
    the weather service a forecast: the request ends in [TypeError], not
    in the fetch-failure response. *)
Lemma soil_failure_on_miss_witness :
  (table (serve (Sample.soil_down Sample.T0) [] 39.875 32.75) = []
   /\ result (serve (Sample.soil_down Sample.T0) [] 39.875 32.75)
      = Raise TypeError)
  /\ (table (serve (Sample.soil_null Sample.T0) [] 39.875 32.75) = []
      /\ result (serve (Sample.soil_null Sample.T0) [] 39.875 32.75)
         = Raise TypeError).
Proof.
  split.
  - refine (soil_failure_on_miss (Sample.soil_down Sample.T0) []
              39.875 32.75 _ _).
    + intros r [=].
    + left. exists 503, None. split; [reflexivity | discriminate].
  - refine (soil_failure_on_miss (Sample.soil_null Sample.T0) []
              39.875 32.75 _ _).
    + intros r [=].
    + right. do 4 eexists. repeat split; reflexivity.
Defined.

(* ================================================================== *)
(** ** Measurements that are missing *)
(* ================================================================== *)

Lemma py_lt_raises (a b : pyval) (e : exn) :
  py_lt a b = Raise e -> e = TypeError.
Proof.
  unfold py_lt. destruct (as_num a), (as_num b); now intros [=].
Qed.

Lemma py_ge_raises (a b : pyval) (e : exn) :
  py_ge a b = Raise e -> e = TypeError.
Proof.
  unfold py_ge. destruct (as_num a), (as_num b); now intros [=].
Qed.

Lemma generate_recommendations_missing_key (order : set_order)
    (d : list (string * pyval)) (wd : pyval) (key : string) :
  measurement_key key -> Obj.assoc key d = None ->
  generate_recommendations order (PDict d) wd
  = generate_recommendations order (PDict ((key, PInt 0) :: d)) wd.
Proof.
  unfold generate_recommendations. rewrite !get_dict. unfold value_or.
  intros [-> | [-> | [-> | ->]]] Hnone; simpl; rewrite Hnone; reflexivity.
Qed.

Lemma generate_recommendations_null (order : set_order)
    (nitrogen wv0010 phh2o cec wd : pyval) :
  In PNone [nitrogen; wv0010; phh2o; cec] ->
  exists e,
    generate_recommendations order
      (engine_input nitrogen wv0010 phh2o cec) wd = Raise e
    /\ (e = TypeError \/ e = OverflowError).
Proof.
  intros Hnull. unfold generate_recommendations, engine_input.
  rewrite !get_dict.
  cbn [value_or Obj.assoc String.eqb Ascii.eqb Bool.eqb bind].
  destruct (py_truediv phh2o (PInt 10)) as [ph | e] eqn:Eph; cbn [bind];
    [| exists e; split; [reflexivity | now apply truediv_10_raises in Eph]].
  destruct (py_lt nitrogen (PInt 100)) as [low_n | e] eqn:En; cbn [bind];
    [| exists e; split; [reflexivity | left; now apply py_lt_raises in En]].
  destruct (py_lt wv0010 (PFloat 0x1.999999999999ap-3)) as [dry | e] eqn:Ew;
    cbn [bind];
    [| exists e; split; [reflexivity | left; now apply py_lt_raises in Ew]].
  destruct (py_ge cec (PInt 10)) as [cec_ok | e] eqn:Ec; cbn [bind];
    [| exists e; split; [reflexivity | left; now apply py_ge_raises in Ec]].
  exfalso. simpl in Hnull.
  destruct Hnull as [-> | [-> | [-> | [-> | []]]]]; discriminate.
Qed.

(** C2. The default 0 of [soil_data.get(key, 0)] serves a key that is
    missing from the dict: the engine then behaves as if the key held 0.
    A measurement that is absent reaches the engine as a key holding
    [None], and then the engine raises instead of returning. *)
Theorem absent_measurement_in_engine (order : set_order) :
  (forall d wd key,
      measurement_key key -> Obj.assoc key d = None ->
      generate_recommendations order (PDict d) wd
      = generate_recommendations order (PDict ((key, PInt 0) :: d)) wd)
  /\ (forall nitrogen wv0010 phh2o cec wd,
         In PNone [nitrogen; wv0010; phh2o; cec] ->
         exists e,
           generate_recommendations order
             (engine_input nitrogen wv0010 phh2o cec) wd = Raise e
           /\ (e = TypeError \/ e = OverflowError)).
Proof.
  split.
  - apply generate_recommendations_missing_key.
  - apply generate_recommendations_null.
Qed.

(** The nitrogen layer is absent and the other three are measured. *)
Lemma absent_measurement_in_engine_witness :
  exists e,
    generate_recommendations insertion_order
      (engine_input PNone (PInt 31) (PInt 65) (PInt 152)) Sample.forecast
    = Raise e
    /\ (e = TypeError \/ e = OverflowError).
Proof.
  apply (proj2 (absent_measurement_in_engine insertion_order)
           PNone (PInt 31) (PInt 65) (PInt 152) Sample.forecast).
  left. reflexivity.
Defined.

Section Extraction.

Lemma find_layer_absent (name : string) (layers : list pyval) :
  layer_absent name layers -> find_layer name layers = Ok PNone.
Proof.
  induction 1 as [| layer rest (n & Hn & Hne) _ IH]; simpl; [reflexivity |].
  rewrite Hn. simpl. now rewrite Hne.
Qed.

Lemma find_layer_total (name : string) (layers : list pyval) :
  Forall well_formed_layer layers ->
  exists layer,
    find_layer name layers = Ok layer
    /\ (layer = PNone \/ well_formed_layer layer).
Proof.
  induction 1 as [| layer rest Hwf _ IH]; simpl.
  - exists PNone. now split; [| left].
  - destruct Hwf as [[n Hn] Hvs]. rewrite Hn. simpl.
    destruct (Obj.eq_str n name).
    + exists layer. split; [reflexivity | right; exact (conj (ex_intro _ n Hn) Hvs)].
    + exact IH.
Qed.

Lemma well_formed_layer_truthy (layer : pyval) :
  well_formed_layer layer -> Obj.truthy layer = true.
Proof.
  intros [[n Hn] _]. destruct layer as [| | | | | | [| kv d]];
    try discriminate; reflexivity.
Qed.

Lemma well_formed_layer_not_none : ~ well_formed_layer PNone.
Proof. intros [[n Hn] _]. discriminate. Qed.

Lemma mean_of_total (layer : pyval) :
  layer = PNone \/ well_formed_layer layer ->
  exists v, mean_of layer = Ok v /\ (layer = PNone -> v = PNone).
Proof.
  intros [-> | Hwf].
  - exists PNone. now split.
  - unfold mean_of. rewrite (well_formed_layer_truthy _ Hwf).
    destruct Hwf as [Hname [vs Hvs]]. rewrite Hvs. cbn [bind].
    rewrite get_dict. eexists. split; [reflexivity |].
    intros ->. discriminate.
Qed.

End Extraction.

(** C5. For a payload of well-formed layers the extraction returns.  When
    the nitrogen layer is missing, the nitrogen value is null and so is
    the nitrogen uncertainty; each other named layer that is missing gives
    null for its field.  The default 0 is the uncertainty of a nitrogen
    layer that is present and whose values have no ['uncertainty']. *)
Theorem missing_layer_extracts_null (layers : list pyval) :
  Forall well_formed_layer layers ->
  exists m,
    extract_measurements (PList layers) = Ok m
    /\ (layer_absent "nitrogen" layers ->
        m_nitrogen m = PNone /\ m_nitrogen_uncertainty m = PNone)
    /\ (layer_absent "phh2o" layers -> m_phh2o m = PNone)
    /\ (layer_absent "wv0010" layers -> m_wv0010 m = PNone)
    /\ (layer_absent "cec" layers -> m_cec m = PNone)
    /\ (forall layer vs,
           find_layer "nitrogen" layers = Ok layer ->
           depth0_values layer = Ok (PDict vs) ->
           m_nitrogen m = value_or vs "mean" PNone
           /\ m_nitrogen_uncertainty m = value_or vs "uncertainty" (PInt 0)).
Proof.
  intros Hwf. unfold extract_measurements, next_layer. simpl.
  destruct (find_layer_total "nitrogen" layers Hwf) as (ln & Hln & Cn).
  destruct (find_layer_total "phh2o" layers Hwf) as (lp & Hlp & Cp).
  destruct (find_layer_total "wv0010" layers Hwf) as (lw & Hlw & Cw).
  destruct (find_layer_total "cec" layers Hwf) as (lc & Hlc & Cc).
  rewrite Hln, Hlp, Hlw, Hlc. simpl.
  destruct (mean_of_total lp Cp) as (vp & -> & Hvp).
  destruct (mean_of_total lw Cw) as (vw & -> & Hvw).
  destruct (mean_of_total lc Cc) as (vc & -> & Hvc).
  assert (forall name l, find_layer name layers = Ok l ->
                         layer_absent name layers -> l = PNone) as Habs.
  { intros name l Hl Ha. rewrite (find_layer_absent _ _ Ha) in Hl.
    now injection Hl. }
  destruct Cn as [-> | Hn].
  - simpl. eexists. split; [reflexivity |]. simpl.
    repeat apply conj; eauto.
    intros l0 vs0 [= <-]. discriminate.
  - rewrite (well_formed_layer_truthy _ Hn).
    destruct Hn as [Hname [vs Hvs]]. rewrite Hvs. cbn [bind].
    rewrite !get_dict. cbn [bind fst snd]. eexists.
    split; [reflexivity |]. simpl.
    repeat apply conj; eauto.
    + intros Ha. rewrite (Habs _ _ Hln Ha) in Hvs. discriminate.
    + intros l0 vs0 [= <-] Hvs0. rewrite Hvs in Hvs0.
      now injection Hvs0 as <-.
Qed.

(** The payload without its nitrogen layer. *)
Lemma missing_layer_extracts_null_witness :
  exists m,
    extract_measurements (PList Sample.no_nitrogen) = Ok m
    /\ m_nitrogen m = PNone /\ m_nitrogen_uncertainty m = PNone.
Proof.
  assert (well_formed : forall name mean uncertainty,
             well_formed_layer (Sample.layer name mean uncertainty)).
  { intros. split; eexists; reflexivity. }
  assert (absent : layer_absent "nitrogen" Sample.no_nitrogen).
  { repeat constructor; eexists; split; reflexivity. }
  destruct (missing_layer_extracts_null Sample.no_nitrogen
              ltac:(repeat constructor; apply well_formed))
    as (m & Hm & Hnitrogen & _).
  exists m. split; [exact Hm | exact (Hnitrogen absent)].
Defined.

(** C5, as the claim has it, fails on a payload that has no nitrogen
    layer: the uncertainty extracted is null, it is not 0. *)
Lemma nitrogen_uncertainty_is_null_not_zero :
  layer_absent "nitrogen" Sample.no_nitrogen
  /\ exists m,
       extract_measurements (PList Sample.no_nitrogen) = Ok m
       /\ m_nitrogen m = PNone
       /\ m_nitrogen_uncertainty m = PNone
       /\ m_nitrogen_uncertainty m <> PInt 0
       /\ m_nitrogen_uncertainty m <> PFloat 0.
Proof.
  split.
  - repeat constructor; eexists; split; reflexivity.
  - eexists. split; [reflexivity |]. simpl. repeat split; discriminate.
Qed.

Section MissingLayer.

Lemma extract_absent (layers : list pyval) (m : measurements)
    (name : string) :
  extract_measurements (PList layers) = Ok m ->
  measurement_key name -> layer_absent name layers ->
  measurement m name = PNone.
Proof.
  unfold extract_measurements, next_layer. simpl.
  intros H [-> | [-> | [-> | ->]]] Ha; rewrite (find_layer_absent _ _ Ha) in H;
    simpl in H; repeat bind_ok H; injection H as <-; simpl;
    try reflexivity.
  all: repeat match goal with
         | E : mean_of PNone = Ok _ |- _ => injection E as <-
         end; reflexivity.
Qed.

Lemma new_record_null (w : env) (lat0 lon0 : float) (m : measurements)
    (weather_data : pyval) (name : string) :
  measurement_key name -> measurement m name = PNone ->
  exists e, new_record w lat0 lon0 m weather_data = Raise e.
Proof.
  intros Hkey Hnull. unfold new_record.
  destruct (today weather_data "avgtemp_c") as [t | e]; simpl;
    [| now exists e].
  destruct (today weather_data "avghumidity") as [h | e]; simpl;
    [| now exists e].
  destruct (generate_recommendations_null (order w) (m_nitrogen m)
              (m_wv0010 m) (m_phh2o m) (m_cec m) weather_data)
    as (e & He & _).
  - destruct Hkey as [-> | [-> | [-> | ->]]]; simpl in Hnull; simpl; auto.
  - unfold engine_input in He. rewrite He. now exists e.
Qed.

Lemma soil_fetch_succeeds_data (r : http_result) (layers : list pyval) :
  soil_fetch_succeeds r layers ->
  get_soil_data r = Ok (PList layers)
  /\ Obj.truthy (PList layers) = true.
Proof.
  intros (body & props & -> & Hb & Hp & Hn). simpl.
  rewrite Hb. simpl. rewrite Hp. simpl. rewrite Hn. simpl.
  split; [reflexivity |]. destruct layers; [discriminate | reflexivity].
Qed.

Lemma weather_fetch_succeeds_data (r : http_result) (weather_data : pyval) :
  weather_fetch_succeeds r weather_data ->
  get_weather_data r = Ok weather_data
  /\ Obj.truthy weather_data = true.
Proof.
  intros (body & forecast & -> & Hb & Hf & Ht). simpl.
  rewrite Hb. simpl. now rewrite Hf.
Qed.

End MissingLayer.

(** C3.  Both services answer, but the payload lacks one of the four named
    layers.  The measurement extracted for that layer is null, and the
    request stores nothing: it ends in an exception and the table is the
    one the lookup left. *)
Theorem missing_layer_not_persisted (w : env) (table0 : list SoilData)
    (lat0 lon0 : float) (layers : list pyval) (weather_data : pyval)
    (name : string) :
  cache_miss w table0 lat0 lon0 ->
  soil_fetch_succeeds (soil_api w lat0 lon0) layers ->
  weather_fetch_succeeds (weather_api w lat0 lon0) weather_data ->
  measurement_key name ->
  layer_absent name layers ->
  (forall m, extract_measurements (PList layers) = Ok m ->
             measurement m name = PNone)
  /\ table (serve w table0 lat0 lon0) = table_after_lookup w table0 lat0 lon0
  /\ exists e, result (serve w table0 lat0 lon0) = Raise e.
Proof.
  intros Hmiss Hsoil Hweather Hkey Habsent.
  split; [intros m Hm; now apply extract_absent with (layers := layers) |].
  rewrite (serve_miss w lat0 lon0 table0 Hmiss), fetch_and_store_run.
  destruct (soil_fetch_succeeds_data _ _ Hsoil) as [-> ->].
  destruct (weather_fetch_succeeds_data _ _ Hweather) as [-> ->].
  simpl.
  destruct (extract_measurements (PList layers)) as [m | e] eqn:Em;
    [| split; [reflexivity | now exists e]].
  destruct (new_record_null w lat0 lon0 m weather_data name Hkey
              (extract_absent layers m name Em Hkey Habsent)) as [e ->].
  split; [reflexivity | now exists e].
Qed.

(** The payload without its [cec] layer. *)
Lemma missing_layer_not_persisted_witness :
  table (serve (Sample.world
                  (HttpResponse 200 (Some (Sample.soil_json Sample.no_cec)))
                  (HttpResponse 200 (Some Sample.weather_json)) Sample.T0)
           [] 39.875 32.75) = []
  /\ exists e,
       result (serve (Sample.world
                        (HttpResponse 200
                           (Some (Sample.soil_json Sample.no_cec)))
                        (HttpResponse 200 (Some Sample.weather_json))
                        Sample.T0)
                 [] 39.875 32.75) = Raise e.
Proof.
  refine (proj2 (missing_layer_not_persisted
                   (Sample.world
                      (HttpResponse 200 (Some (Sample.soil_json Sample.no_cec)))
                      (HttpResponse 200 (Some Sample.weather_json)) Sample.T0)
                   [] 39.875 32.75 Sample.no_cec Sample.forecast "cec"
                   _ _ _ _ _)).
  - intros r [=].
  - do 2 eexists. repeat split; reflexivity.
  - do 2 eexists. repeat split; reflexivity.
  - right. right. right. reflexivity.
  - repeat constructor; eexists; split; reflexivity.
Defined.

(** C3, as the claim has it, fails on that payload: both services have
    answered, the [cec] layer is absent, and no record is stored. *)
Lemma missing_cec_layer_stores_nothing :
  let w := Sample.world
             (HttpResponse 200 (Some (Sample.soil_json Sample.no_cec)))
             (HttpResponse 200 (Some Sample.weather_json)) Sample.T0 in
  get_soil_data (soil_api w 39.875 32.75) = Ok (PList Sample.no_cec)
  /\ get_weather_data (weather_api w 39.875 32.75) = Ok Sample.forecast
  /\ layer_absent "cec" Sample.no_cec
  /\ serve w [] 39.875 32.75
     = {| result := Raise TypeError; table := [];
          calls := both_calls 39.875 32.75 |}.
Proof.
  repeat split.
  repeat constructor; eexists; split; reflexivity.
Qed.

(* ================================================================== *)
(** ** A request that stores a record *)
(* ================================================================== *)

Section Stored.

Variables (w : env) (lat0 lon0 : float).

Lemma serve_cases (table0 : list SoilData) :
  (exists r,
      find_closest_coordinates table0 lat0 lon0 DEFAULT_THRESHOLD = Some r
      /\ now_at_lookup w - recorded_at_utc r <= TWO_DAYS
      /\ serve w table0 lat0 lon0
         = {| result := Ok (found_response r); table := table0;
              calls := [] |})
  \/ (cache_miss w table0 lat0 lon0
      /\ serve w table0 lat0 lon0
         = run (fetch_and_store w lat0 lon0)
             (table_after_lookup w table0 lat0 lon0)).
Proof.
  destruct (find_closest_coordinates table0 lat0 lon0 DEFAULT_THRESHOLD)
    as [r |] eqn:Hfind.
  - destruct (Z_le_gt_dec (now_at_lookup w - recorded_at_utc r) TWO_DAYS)
      as [Hle | Hgt].
    + left. exists r. repeat split; trivial. now apply serve_fresh.
    + right.
      assert (cache_miss w table0 lat0 lon0) as Hmiss.
      { intros r' Hr'. rewrite Hfind in Hr'. now injection Hr' as <-. }
      split; [exact Hmiss | now apply serve_miss].
  - right.
    assert (cache_miss w table0 lat0 lon0) as Hmiss.
    { intros r' Hr'. rewrite Hfind in Hr'. discriminate. }
    split; [exact Hmiss | now apply serve_miss].
Qed.

Lemma new_record_inv (m : measurements) (weather_data : pyval)
    (record : SoilData) :
  new_record w lat0 lon0 m weather_data = Ok record ->
  exists advisories,
    generate_recommendations (order w)
      (engine_input (m_nitrogen m) (m_wv0010 m) (m_phh2o m) (m_cec m))
      weather_data = Ok advisories
    /\ recommendations record = join "; " advisories
    /\ date_recorded record = now_utc (now_at_insert w)
    /\ lat record = lat0 /\ lon record = lon0.
Proof.
  unfold new_record. intros H. bind_ok H. bind_ok H. bind_ok H.
  injection H as <-. exists a1. repeat split. exact E1.
Qed.

Lemma success_response_recommendations (m : measurements)
    (weather_data : pyval) (record : SoilData) (resp : response)
    (sv : soil_view) (recs : pyval) :
  success_response m weather_data record = Ok resp ->
  json_body resp = Success sv recs ->
  recs = PStr (recommendations record).
Proof.
  unfold success_response. intros H. bind_ok H. bind_ok H. bind_ok H.
  injection H as <-. simpl. now intros [= _ <-].
Qed.

(** What a fetch stage that answers with a success body has done. *)
Lemma fetch_and_store_success (table0 : list SoilData) (resp : response)
    (sv : soil_view) (recs : pyval) :
  result (run (fetch_and_store w lat0 lon0) table0) = Ok resp ->
  json_body resp = Success sv recs ->
  exists soil_data weather_data m record advisories,
    get_soil_data (soil_api w lat0 lon0) = Ok soil_data
    /\ get_weather_data (weather_api w lat0 lon0) = Ok weather_data
    /\ extract_measurements soil_data = Ok m
    /\ generate_recommendations (order w)
         (engine_input (m_nitrogen m) (m_wv0010 m) (m_phh2o m) (m_cec m))
         weather_data = Ok advisories
    /\ new_record w lat0 lon0 m weather_data = Ok record
    /\ recommendations record = join "; " advisories
    /\ date_recorded record = now_utc (now_at_insert w)
    /\ lat record = lat0 /\ lon record = lon0
    /\ run (fetch_and_store w lat0 lon0) table0
       = {| result := Ok resp;
            table := (table0 ++ [with_id (next_id table0) record])%list;
            calls := both_calls lat0 lon0 |}
    /\ recs = PStr (join "; " advisories).
Proof.
  rewrite fetch_and_store_run.
  destruct (get_soil_data (soil_api w lat0 lon0)) as [soil_data | e] eqn:Es;
    [| discriminate].
  destruct (get_weather_data (weather_api w lat0 lon0))
    as [weather_data | e] eqn:Ew; [| discriminate].
  destruct (negb (Obj.truthy soil_data) || negb (Obj.truthy weather_data)).
  { simpl. intros [= <-]. discriminate. }
  destruct (extract_measurements soil_data) as [m | e] eqn:Em;
    [| discriminate].
  destruct (new_record w lat0 lon0 m weather_data) as [record | e] eqn:Er;
    [| discriminate].
  destruct (not_null record); [| discriminate].
  cbn [result]. intros Hresp Hbody.
  destruct (new_record_inv _ _ _ Er) as (advisories & Hg & Hr & Hd & Hla & Hlo).
  exists soil_data, weather_data, m, record, advisories.
  rewrite Hresp, <- Hr.
  repeat apply conj; trivial.
  exact (success_response_recommendations _ _ _ _ _ _ Hresp Hbody).
Qed.

End Stored.

(** C4. A request that answers with the success body was a cache miss.
    The soil data and the forecast it fetched, and the measurements it
    extracted from that soil data, are what the engine was run on; the
    strings the engine returned are joined with ["; "], the joined string
    is the [recommendations] column of the record added to the table, and
    the response carries that same joined string. *)
Theorem recommendations_joined (w : env) (table0 : list SoilData)
    (lat0 lon0 : float) (resp : response) (sv : soil_view) (recs : pyval) :
  result (serve w table0 lat0 lon0) = Ok resp ->
  json_body resp = Success sv recs ->
  cache_miss w table0 lat0 lon0
  /\ exists soil_data weather_data m advisories record,
       get_soil_data (soil_api w lat0 lon0) = Ok soil_data
       /\ get_weather_data (weather_api w lat0 lon0) = Ok weather_data
       /\ extract_measurements soil_data = Ok m
       /\ generate_recommendations (order w)
            (PDict [("nitrogen", m_nitrogen m); ("wv0010", m_wv0010 m);
                    ("phh2o", m_phh2o m); ("cec", m_cec m)])
            weather_data = Ok advisories
       /\ table (serve w table0 lat0 lon0)
          = (table_after_lookup w table0 lat0 lon0 ++ [record])%list
       /\ recommendations record = join "; " advisories
       /\ recs = PStr (join "; " advisories).
Proof.
  intros Hresult Hbody.
  destruct (serve_cases w lat0 lon0 table0)
    as [(r & _ & _ & Hserve) | (Hmiss & Hserve)]; rewrite Hserve in *.
  - simpl in Hresult. injection Hresult as <-. discriminate.
  - split; [exact Hmiss |].
    destruct (fetch_and_store_success w lat0 lon0 _ _ _ _ Hresult Hbody)
      as (soil_data & weather_data & m & record & advisories
          & Hs & Hw & Hm & Hg & _ & Hr & _ & _ & _ & -> & ->).
    exists soil_data, weather_data, m, advisories. eexists.
    repeat apply conj;
      [exact Hs | exact Hw | exact Hm | exact Hg | reflexivity | exact Hr
      | reflexivity].
Qed.

(** The sample payloads: the engine, run on the measurements extracted
    from the fetched layers and on the fetched forecast, returns four
    strings; their join is stored and returned. *)
Lemma recommendations_joined_witness :
  exists soil_data weather_data m advisories record,
    get_soil_data (soil_api (Sample.both_up Sample.T0) 39.875 32.75)
    = Ok soil_data
    /\ get_weather_data (weather_api (Sample.both_up Sample.T0) 39.875 32.75)
       = Ok weather_data
    /\ extract_measurements soil_data = Ok m
    /\ generate_recommendations insertion_order
         (PDict [("nitrogen", m_nitrogen m); ("wv0010", m_wv0010 m);
                 ("phh2o", m_phh2o m); ("cec", m_cec m)])
         weather_data = Ok advisories
    /\ table (serve (Sample.both_up Sample.T0) [] 39.875 32.75)
       = [record]
    /\ recommendations record = join "; " advisories
    /\ PStr
         "Soil pH is within the optimal range.; CEC is within the optimal range.; High average chance of rain (60.0%). Delay irrigation.; Strong winds expected (25.0 kph). Protect crops."
       = PStr (join "; " advisories).
Proof.
  refine (proj2 (recommendations_joined (Sample.both_up Sample.T0) []
                   39.875 32.75 _ _ _ _ _)).
  - reflexivity.
  - reflexivity.
Defined.

(** C4, as the claim has it, fails: the response of a request that stored
    a record carries the joined string, which is no list. *)
Lemma response_recommendations_is_a_string :
  exists resp sv,
    serve (Sample.both_up Sample.T0) [] 39.875 32.75
    = {| result := Ok resp;
         table := table (serve (Sample.both_up Sample.T0) [] 39.875 32.75);
         calls := both_calls 39.875 32.75 |}
    /\ json_body resp
       = Success sv
           (PStr
              "Soil pH is within the optimal range.; CEC is within the optimal range.; High average chance of rain (60.0%). Delay irrigation.; Strong winds expected (25.0 kph). Protect crops.")
    /\ forall recs l, json_body resp = Success sv recs -> recs <> PList l.
Proof.
  eexists. eexists. split; [reflexivity |]. split; [reflexivity |].
  intros recs l [= <-]. discriminate.
Qed.

(* ================================================================== *)
(** ** Reusing a stored record *)
(* ================================================================== *)

Lemma recorded_at_utc_with_id (i : Z) (record : SoilData) (t : Z) :
  date_recorded record = now_utc t ->
  recorded_at_utc (with_id i record) = t.
Proof.
  unfold recorded_at_utc. simpl. intros ->. simpl. lia.
Qed.

(** C9. A request that finds a record at most two days old answers with
    that record and does nothing else: no call goes out and the table is
    unchanged.  After a request that stored a record, a second request
    whose coordinates are within the threshold of that record, within two
    days, is answered with that record and without any call, provided that
    no record stored before it is within the threshold of the second
    query. *)
Theorem cache_hit_no_side_effect :
  (forall w table0 lat0 lon0 r,
      find_closest_coordinates table0 lat0 lon0 DEFAULT_THRESHOLD = Some r ->
      now_at_lookup w - recorded_at_utc r <= TWO_DAYS ->
      serve w table0 lat0 lon0
      = {| result := Ok (found_response r); table := table0; calls := [] |})
  /\ (forall w1 table0 lat1 lon1 resp sv recs,
         result (serve w1 table0 lat1 lon1) = Ok resp ->
         json_body resp = Success sv recs ->
         exists before r,
           table (serve w1 table0 lat1 lon1) = (before ++ [r])%list
           /\ lat r = lat1 /\ lon r = lon1
           /\ recorded_at_utc r = now_at_insert w1
           /\ forall w2 lat2 lon2,
                within 0.5 lat2 lon2 r ->
                now_at_lookup w2 - now_at_insert w1 <= TWO_DAYS ->
                Forall (fun x => ~ within 0.5 lat2 lon2 x) before ->
                serve w2 (before ++ [r]) lat2 lon2
                = {| result := Ok (found_response r);
                     table := (before ++ [r])%list;
                     calls := [] |}).
Proof.
  split.
  - intros w table0 lat0 lon0 r. apply serve_fresh.
  - intros w1 table0 lat1 lon1 resp sv recs Hresult Hbody.
    destruct (serve_cases w1 lat1 lon1 table0)
      as [(r & _ & _ & Hserve) | (Hmiss & Hserve)]; rewrite Hserve in *.
    { simpl in Hresult. injection Hresult as <-. discriminate. }
    destruct (fetch_and_store_success w1 lat1 lon1 _ _ _ _ Hresult Hbody)
      as (soil_data & weather_data & m & record & advisories
          & _ & _ & _ & _ & _ & _ & Hdate & Hlat & Hlon & -> & _).
    set (before := table_after_lookup w1 table0 lat1 lon1).
    exists before, (with_id (next_id before) record).
    pose proof (recorded_at_utc_with_id (next_id before) record _ Hdate)
      as Hat.
    repeat apply conj; trivial.
    intros w2 lat2 lon2 Hnear Hage Hbefore.
    apply serve_fresh.
    + unfold DEFAULT_THRESHOLD. now apply find_split_some.
    + now rewrite Hat.
Qed.

(** A first request stores a record for (39.875, 32.75); an hour later a
    request for the point 0.1 degree further on both axes is answered
    with that record. *)
Lemma cache_hit_no_side_effect_witness :
  exists r,
    table (serve (Sample.both_up Sample.T0) [] 39.875 32.75) = [r]
    /\ serve (Sample.both_up (Sample.T0 + 3600000000)) [r]
         (39.875 + Sample.tenth) (32.75 + Sample.tenth)
       = {| result := Ok (found_response r); table := [r]; calls := [] |}.
Proof.
  destruct (proj2 cache_hit_no_side_effect (Sample.both_up Sample.T0) []
              39.875%float 32.75%float _ _ _ eq_refl eq_refl)
    as (before & r & Htable & Hlat & Hlon & Hat & Hround).
  destruct before as [| x [| y before]]; try discriminate Htable.
  exists r. split; [exact Htable |].
  apply (Hround (Sample.both_up (Sample.T0 + 3600000000))).
  - unfold within. rewrite Hlat, Hlon. split; reflexivity.
  - vm_compute. discriminate.
  - constructor.
Defined.

(** C9, as the claim has it, fails when an older record lies within the
    threshold of the second query: the lookup returns the first match in
    storage order.  The first request, for (10, 20), does not match the
    record stored at (10.5625, 20) and stores a record of its own; the
    second request, for (10 + 0.1, 20 + 0.1), is answered with the older
    record and not with the one just stored. *)
Lemma older_record_shadows_new_one :
  let first := serve (Sample.both_up (Sample.T0 + 1000000))
                 [Sample.northern] 10 20 in
  let second := serve (Sample.both_up (Sample.T0 + 2000000))
                  (table first) (10 + Sample.tenth) (20 + Sample.tenth) in
  exists resp sv recs new,
    result first = Ok resp
    /\ json_body resp = Success sv recs
    /\ table first = [Sample.northern; new]
    /\ lat new = 10%float /\ lon new = 20%float
    /\ recorded_at_utc new = Sample.T0 + 1000000
    /\ within 0.5 (10 + Sample.tenth) (20 + Sample.tenth) new
    /\ second = {| result := Ok (found_response Sample.northern);
                   table := table first; calls := [] |}
    /\ found_response Sample.northern <> found_response new.
Proof.
  do 4 eexists.
  repeat apply conj; try reflexivity.
  discriminate.
Qed.

(* ================================================================== *)
(** ** Coordinates that are not finite, and the distance of a point to
       itself *)
(* ================================================================== *)

Section Coordinates.

(** A difference with a NaN or an infinity is never at most a half. *)
Lemma far_from_non_finite (x y : float) :
  In y NON_FINITE ->
  PrimFloat.leb (PrimFloat.abs (x - y)) 0.5 = false.
Proof.
  intros Hy. rewrite leb_spec, abs_spec, sub_spec.
  simpl in Hy. destruct Hy as [<- | [<- | [<- | []]]];
    destruct (Prim2SF x) as [[|] | [|] | | [|] m e]; reflexivity.
Qed.

Lemma finite_cases (x : float) :
  ~ In x NON_FINITE ->
  exists s, Prim2SF x = S754_zero s
            \/ exists m e, Prim2SF x = S754_finite s m e.
Proof.
  intros Hx. destruct (Prim2SF x) as [s | s | | s m e] eqn:E.
  - now exists s; left.
  - exfalso. apply Hx. rewrite <- (SF2Prim_Prim2SF x), E.
    destruct s; simpl; auto.
  - exfalso. apply Hx. rewrite <- (SF2Prim_Prim2SF x), E. simpl. auto.
  - exists s. right. now exists m, e.
Qed.

(** A finite float is at distance zero of itself. *)
Lemma close_to_itself (x : float) :
  ~ In x NON_FINITE ->
  PrimFloat.leb (PrimFloat.abs (x - x)) 0.5 = true.
Proof.
  intros Hx. rewrite leb_spec, abs_spec, sub_spec.
  destruct (finite_cases x Hx) as [s [-> | (m & e & ->)]].
  - destruct s; reflexivity.
  - unfold SF64sub, SFsub. rewrite Z.sub_diag. reflexivity.
Qed.

End Coordinates.

(* ================================================================== *)
(** ** Which advisories the engine returns *)
(* ================================================================== *)

Section Members.

Lemma set_add_in (x y : string) (s : list string) :
  In x (set_add y s) <-> x = y \/ In x s.
Proof.
  unfold set_add. destruct (existsb (String.eqb y) s) eqn:E.
  - split; [now right |]. intros [-> | H]; [| exact H].
    apply existsb_exists in E. destruct E as (z & Hz & Heq).
    apply String.eqb_eq in Heq. now subst.
  - rewrite in_app_iff. simpl. intuition.
Qed.

Lemma set_add_nodup (y : string) (s : list string) :
  NoDup s -> NoDup (set_add y s).
Proof.
  intros Hs. unfold set_add. destruct (existsb (String.eqb y) s) eqn:E;
    [exact Hs |].
  apply NoDup_app; [exact Hs | repeat constructor; intros [] |].
  intros x Hx [Heq | []].
  assert (existsb (String.eqb y) s = true) as Hin.
  { apply existsb_exists. exists x.
    split; [exact Hx | rewrite Heq; apply String.eqb_refl]. }
  congruence.
Qed.

Lemma set_add_length (y : string) (s : list string) :
  (List.length (set_add y s) <= S (List.length s))%nat.
Proof.
  unfold set_add. destruct (existsb (String.eqb y) s); [lia |].
  rewrite length_app. simpl. lia.
Qed.

Lemma ph_rule_in (ph : float) (s : list string) (x : string) :
  In x (ph_rule ph s) <-> In x s \/ In x (ph_rule ph []).
Proof.
  unfold ph_rule.
  repeat match goal with
         | |- context [if ?b then _ else _] => destruct b
         end; rewrite ?set_add_in; simpl; intuition.
Qed.

Lemma ph_rule_nodup (ph : float) (s : list string) :
  NoDup s -> NoDup (ph_rule ph s).
Proof.
  intros Hs. unfold ph_rule.
  repeat match goal with
         | |- context [if ?b then _ else _] => destruct b
         end; auto using set_add_nodup.
Qed.

Lemma ph_rule_length (ph : float) (s : list string) :
  (List.length (ph_rule ph s) <= S (List.length s))%nat.
Proof.
  unfold ph_rule.
  repeat match goal with
         | |- context [if ?b then _ else _] => destruct b
         end; try apply set_add_length; lia.
Qed.

Lemma soil_rules_in (low_n dry : bool) (ph : float) (cec_ok : bool)
    (x : string) :
  In x (soil_rules low_n dry ph cec_ok)
  <-> (low_n = true /\ x = MSG_NITROGEN)
      \/ (dry = true /\ x = MSG_MOISTURE)
      \/ In x (ph_rule ph [])
      \/ (cec_ok = true /\ x = MSG_CEC).
Proof.
  unfold soil_rules.
  destruct cec_ok, dry, low_n;
    rewrite ?set_add_in, ph_rule_in, ?set_add_in; simpl;
    intuition congruence.
Qed.

Lemma soil_rules_nodup (low_n dry : bool) (ph : float) (cec_ok : bool) :
  NoDup (soil_rules low_n dry ph cec_ok).
Proof.
  unfold soil_rules.
  destruct cec_ok, dry, low_n;
    repeat first [apply set_add_nodup | apply ph_rule_nodup];
    constructor.
Qed.

Lemma soil_rules_length (low_n dry : bool) (ph : float) (cec_ok : bool) :
  (List.length (soil_rules low_n dry ph cec_ok) <= 4)%nat.
Proof.
  unfold soil_rules.
  assert (forall y s n, (List.length s <= n)%nat ->
                        (List.length (set_add y s) <= S n)%nat) as Ha.
  { intros y s n Hn. pose proof (set_add_length y s). lia. }
  assert (forall s n, (List.length s <= n)%nat ->
                      (List.length (ph_rule ph s) <= S n)%nat) as Hp.
  { intros s n Hn. pose proof (ph_rule_length ph s). lia. }
  destruct cec_ok, dry, low_n; simpl;
    repeat first [apply Ha | apply Hp | apply Nat.le_0_l
                 | apply Nat.le_le_succ_r].
Qed.

(** The engine, stage by stage, on a dict. *)
Lemma generate_recommendations_shape (order : set_order)
    (d : list (string * pyval)) (wd : pyval) (l : list string) :
  generate_recommendations order (PDict d) wd = Ok l ->
  exists ph low_n dry cec_ok recs,
    py_truediv (value_or d "phh2o" (PInt 0)) (PInt 10) = Ok ph
    /\ py_lt (value_or d "nitrogen" (PInt 0)) (PInt 100) = Ok low_n
    /\ py_lt (value_or d "wv0010" (PInt 0)) (PFloat 0x1.999999999999ap-3)
       = Ok dry
    /\ py_ge (value_or d "cec" (PInt 0)) (PInt 10) = Ok cec_ok
    /\ weather_rules wd (soil_rules low_n dry ph cec_ok) = Ok recs
    /\ l = order recs.
Proof.
  unfold generate_recommendations. rewrite !get_dict. cbn [bind].
  intros H. bind_ok H. bind_ok H. bind_ok H. bind_ok H. bind_ok H.
  injection H as <-.
  exists a, a0, a1, a2, a3. repeat (split; [reflexivity || assumption |]).
  reflexivity.
Qed.

End Members.

Section WeatherMembers.

Lemma weather_rules_split (wd : pyval) (s s' : list string) :
  weather_rules wd s = Ok s' ->
  exists wm,
    weather_rules wd [] = Ok wm
    /\ (forall x, In x s' <-> In x s \/ In x wm)
    /\ (List.length s' <= 2 + List.length s)%nat
    /\ (NoDup s -> NoDup s').
Proof.
  unfold weather_rules. destruct (Obj.truthy wd).
  - destruct (average "daily_chance_of_rain" wd) as [a | e]; cbn [bind];
      [| discriminate].
    destruct (average "maxwind_kph" wd) as [a0 | e]; cbn [bind];
      [| discriminate].
    generalize (num_ltb (NInt 50) (NFloat a)),
      (num_ltb (NInt 20) (NFloat a0)).
    intros c_rain c_wind [= <-]. eexists. split; [reflexivity |].
    destruct c_rain, c_wind;
      (split; [intros x; rewrite ?set_add_in; simpl; intuition |]);
      (split; [| auto using set_add_nodup]).
    + pose proof (set_add_length (msg_wind a0) (set_add (msg_rain a) s)).
      pose proof (set_add_length (msg_rain a) s). lia.
    + pose proof (set_add_length (msg_rain a) s). lia.
    + pose proof (set_add_length (msg_wind a0) s). lia.
    + lia.
  - intros [= <-]. exists []. split; [reflexivity |].
    split; [intros x; simpl; intuition |]. split; [lia | auto].
Qed.

(** What the forecast rules add: nothing without a forecast; with one,
    the rain message exactly when the average chance of rain is above 50
    and the wind message exactly when the average wind is above 20. *)
Lemma weather_rules_nil (wd : pyval) (wm : list string) :
  weather_rules wd [] = Ok wm ->
  (Obj.truthy wd = false /\ wm = [])
  \/ (Obj.truthy wd = true
      /\ exists avg_rain avg_wind,
           average "daily_chance_of_rain" wd = Ok avg_rain
           /\ average "maxwind_kph" wd = Ok avg_wind
           /\ forall x,
                In x wm
                <-> (num_ltb (NInt 50) (NFloat avg_rain) = true
                     /\ x = msg_rain avg_rain)
                    \/ (num_ltb (NInt 20) (NFloat avg_wind) = true
                        /\ x = msg_wind avg_wind)).
Proof.
  unfold weather_rules. destruct (Obj.truthy wd).
  - destruct (average "daily_chance_of_rain" wd) as [a | e]; cbn [bind];
      [| discriminate].
    destruct (average "maxwind_kph" wd) as [a0 | e]; cbn [bind];
      [| discriminate].
    intros H. right. split; [reflexivity |]. exists a, a0.
    split; [reflexivity | split; [reflexivity |]]. revert H.
    generalize (num_ltb (NInt 50) (NFloat a)),
      (num_ltb (NInt 20) (NFloat a0)).
    intros c_rain c_wind [= <-] x.
    destruct c_rain, c_wind;
      rewrite ?set_add_in; simpl; intuition discriminate.
  - intros [= <-]. now left.
Qed.

Lemma list_of_set_in (order : set_order) (s : list string) (x : string) :
  In x (order s) <-> In x s.
Proof.
  split; apply Permutation_in;
    [apply list_of_set_perm | apply Permutation_sym, list_of_set_perm].
Qed.

(** The strings of a returned list: those of the soil rules and those of
    the forecast rules. *)
Lemma generate_recommendations_in (order : set_order)
    (d : list (string * pyval)) (wd : pyval) (l : list string) :
  generate_recommendations order (PDict d) wd = Ok l ->
  exists ph low_n dry cec_ok wm,
    py_truediv (value_or d "phh2o" (PInt 0)) (PInt 10) = Ok ph
    /\ py_lt (value_or d "nitrogen" (PInt 0)) (PInt 100) = Ok low_n
    /\ py_lt (value_or d "wv0010" (PInt 0)) (PFloat 0x1.999999999999ap-3)
       = Ok dry
    /\ py_ge (value_or d "cec" (PInt 0)) (PInt 10) = Ok cec_ok
    /\ weather_rules wd [] = Ok wm
    /\ (forall x, In x l <-> In x (soil_rules low_n dry ph cec_ok) \/ In x wm)
    /\ NoDup l
    /\ (List.length l <= 6)%nat.
Proof.
  intros H. destruct (generate_recommendations_shape _ _ _ _ H)
    as (ph & low_n & dry & cec_ok & recs & Hph & Hn & Hw & Hc & Hr & ->).
  destruct (weather_rules_split _ _ _ Hr) as (wm & Hwm & Hin & Hlen & Hnd).
  exists ph, low_n, dry, cec_ok, wm. repeat (split; [assumption |]).
  split; [| split].
  - intros x. now rewrite list_of_set_in.
  - apply Permutation_NoDup with (l := recs);
      [apply Permutation_sym, list_of_set_perm |].
    apply Hnd, soil_rules_nodup.
  - rewrite (Permutation_length (list_of_set_perm order recs)).
    pose proof (soil_rules_length low_n dry ph cec_ok). lia.
Qed.

End WeatherMembers.

Section EngineRules.

Lemma ph_rule_nil_in (ph : float) (x : string) :
  In x (ph_rule ph []) -> In x [MSG_PH_OPTIMAL; MSG_PH_LIME; MSG_PH_SULFUR].
Proof.
  unfold ph_rule.
  repeat match goal with
         | |- context [if ?b then _ else _] => destruct b
         end; simpl; intuition.
Qed.

Lemma soil_rules_messages (low_n dry : bool) (ph : float) (cec_ok : bool)
    (x : string) :
  In x (soil_rules low_n dry ph cec_ok) -> In x SOIL_MESSAGES.
Proof.
  rewrite soil_rules_in.
  intros [[_ ->] | [[_ ->] | [H | [_ ->]]]]; simpl; auto 10.
  apply ph_rule_nil_in in H. simpl in H. simpl. intuition.
Qed.

Lemma weather_message_not_soil (wd : pyval) (wm : list string) (x : string) :
  weather_rules wd [] = Ok wm -> In x wm -> ~ In x SOIL_MESSAGES.
Proof.
  intros Hwm Hx Hsoil.
  destruct (weather_rules_nil _ _ Hwm)
    as [[_ ->] | (_ & ar & aw & _ & _ & Hin)]; [destruct Hx |].
  apply Hin in Hx. simpl in Hsoil.
  destruct Hx as [[_ ->] | [_ ->]];
    repeat (destruct Hsoil as [Hsoil | Hsoil]; [discriminate |]);
    destruct Hsoil.
Qed.

End EngineRules.

(** X1. When the engine returns, the fertilizer advisory is in the list
    exactly when [nitrogen < 100] holds, the irrigation advisory exactly
    when [moisture < 0.2] holds, and the CEC advisory exactly when
    [cec >= 10] holds; for an int nitrogen [z] that is [z < 100], for an
    int cec that is [10 <= z]. *)
Theorem soil_advisories_exact (order : set_order)
    (d : list (string * pyval)) (wd : pyval) (l : list string) :
  generate_recommendations order (PDict d) wd = Ok l ->
  (In MSG_NITROGEN l
   <-> py_lt (value_or d "nitrogen" (PInt 0)) (PInt 100) = Ok true)
  /\ (In MSG_MOISTURE l
      <-> py_lt (value_or d "wv0010" (PInt 0)) (PFloat 0x1.999999999999ap-3)
          = Ok true)
  /\ (In MSG_CEC l
      <-> py_ge (value_or d "cec" (PInt 0)) (PInt 10) = Ok true)
  /\ (forall z, value_or d "nitrogen" (PInt 0) = PInt z ->
                (In MSG_NITROGEN l <-> z < 100))
  /\ (forall z, value_or d "cec" (PInt 0) = PInt z ->
                (In MSG_CEC l <-> 10 <= z)).
Proof.
  intros H. destruct (generate_recommendations_in _ _ _ _ H)
    as (ph & low_n & dry & cec_ok & wm & Hph & Hn & Hw & Hc & Hwm & Hin & _).
  assert (forall x, In x SOIL_MESSAGES ->
                    (In x l <-> In x (soil_rules low_n dry ph cec_ok)))
    as Hsoil.
  { intros x Hx. rewrite Hin. split; [| now left].
    intros [Hs | Hm]; [exact Hs |].
    now elim (weather_message_not_soil _ _ _ Hwm Hm). }
  assert (In MSG_NITROGEN l <-> low_n = true) as HN.
  { rewrite Hsoil by (simpl; auto). rewrite soil_rules_in. split.
    - intros [[E _] | [[_ E] | [E | [_ E]]]]; try discriminate; trivial.
      apply ph_rule_nil_in in E. simpl in E.
      repeat (destruct E as [E | E]; [discriminate |]). destruct E.
    - intros ->. now left. }
  assert (In MSG_MOISTURE l <-> dry = true) as HM.
  { rewrite Hsoil by (simpl; auto). rewrite soil_rules_in. split.
    - intros [[_ E] | [[E _] | [E | [_ E]]]]; try discriminate; trivial.
      apply ph_rule_nil_in in E. simpl in E.
      repeat (destruct E as [E | E]; [discriminate |]). destruct E.
    - intros ->. right. now left. }
  assert (In MSG_CEC l <-> cec_ok = true) as HC.
  { rewrite Hsoil by (simpl; auto 10). rewrite soil_rules_in. split.
    - intros [[_ E] | [[_ E] | [E | [E _]]]]; try discriminate; trivial.
      apply ph_rule_nil_in in E. simpl in E.
      repeat (destruct E as [E | E]; [discriminate |]). destruct E.
    - intros ->. right. right. now right. }
  split; [| split; [| split; [| split]]].
  - rewrite HN, Hn. split; congruence.
  - rewrite HM, Hw. split; congruence.
  - rewrite HC, Hc. split; congruence.
  - intros z Hz. rewrite HN. rewrite Hz in Hn. unfold py_lt in Hn.
    simpl in Hn. injection Hn as <-. apply Z.ltb_lt.
  - intros z Hz. rewrite HC. rewrite Hz in Hc. unfold py_ge in Hc.
    simpl in Hc. injection Hc as <-. apply Z.leb_le.
Qed.

(** Nitrogen 50 brings the fertilizer advisory, nitrogen 150 does not. *)
Lemma soil_advisories_exact_witness :
  (In MSG_NITROGEN [MSG_NITROGEN; MSG_PH_OPTIMAL] <-> 50 < 100)
  /\ (In MSG_NITROGEN [MSG_PH_OPTIMAL] <-> 150 < 100).
Proof.
  split.
  - refine (proj1 (proj2 (proj2 (proj2
              (soil_advisories_exact insertion_order
                 [("nitrogen", PInt 50); ("wv0010", PFloat 0.5);
                  ("phh2o", PInt 65); ("cec", PInt 5)] PNone _ _)))) 50 _);
      reflexivity.
  - refine (proj1 (proj2 (proj2 (proj2
              (soil_advisories_exact insertion_order
                 [("nitrogen", PInt 150); ("wv0010", PFloat 0.5);
                  ("phh2o", PInt 65); ("cec", PInt 5)] PNone _ _)))) 150 _);
      reflexivity.
Defined.

(** X2. When the engine returns and there is no forecast (a value that is
    false in Python: [None], an empty list), every string of the list is
    one of the six soil advisories.  With a forecast the two averages were
    computed, the rain advisory is in the list exactly when the average
    chance of rain is above 50, the wind advisory exactly when the average
    wind is above 20, and every other string is a soil advisory. *)
Theorem forecast_advisories_exact (order : set_order)
    (soil_data wd : pyval) (l : list string) :
  generate_recommendations order soil_data wd = Ok l ->
  (Obj.truthy wd = false -> forall x, In x l -> In x SOIL_MESSAGES)
  /\ (Obj.truthy wd = true ->
      exists avg_rain avg_wind,
        average "daily_chance_of_rain" wd = Ok avg_rain
        /\ average "maxwind_kph" wd = Ok avg_wind
        /\ (In (msg_rain avg_rain) l
            <-> num_ltb (NInt 50) (NFloat avg_rain) = true)
        /\ (In (msg_wind avg_wind) l
            <-> num_ltb (NInt 20) (NFloat avg_wind) = true)
        /\ forall x, In x l ->
                     In x SOIL_MESSAGES
                     \/ x = msg_rain avg_rain \/ x = msg_wind avg_wind).
Proof.
  intros H. destruct (generate_recommendations_dict _ _ _ _ H) as [d ->].
  destruct (generate_recommendations_in _ _ _ _ H)
    as (ph & low_n & dry & cec_ok & wm & _ & _ & _ & _ & Hwm & Hin & _).
  destruct (weather_rules_nil _ _ Hwm)
    as [[Hfalse ->] | (Htrue & ar & aw & Har & Haw & Hm)].
  - split; [| congruence]. intros _ x Hx. apply Hin in Hx.
    destruct Hx as [Hx | []]. now apply soil_rules_messages in Hx.
  - split; [congruence |]. intros _. exists ar, aw.
    split; [exact Har | split; [exact Haw |]].
    assert (forall x, ~ In x SOIL_MESSAGES ->
                      (In x l <-> In x wm)) as Hweather.
    { intros x Hx. rewrite Hin. split; [| now right].
      intros [Hs | Hw]; [| exact Hw].
      now apply soil_rules_messages in Hs. }
    assert (forall f, ~ In (msg_rain f) SOIL_MESSAGES) as Hrain.
    { intros f Hf. simpl in Hf.
      repeat (destruct Hf as [Hf | Hf]; [discriminate |]). destruct Hf. }
    assert (forall f, ~ In (msg_wind f) SOIL_MESSAGES) as Hwind.
    { intros f Hf. simpl in Hf.
      repeat (destruct Hf as [Hf | Hf]; [discriminate |]). destruct Hf. }
    split; [| split].
    + rewrite (Hweather _ (Hrain ar)), Hm. split.
      * intros [[Hc _] | [_ E]]; [exact Hc | discriminate].
      * intros Hc. left. now split.
    + rewrite (Hweather _ (Hwind aw)), Hm. split.
      * intros [[_ E] | [Hc _]]; [discriminate | exact Hc].
      * intros Hc. right. now split.
    + intros x Hx. apply Hin in Hx. destruct Hx as [Hx | Hx].
      * left. now apply soil_rules_messages in Hx.
      * apply Hm in Hx. right. destruct Hx as [[_ ->] | [_ ->]]; auto.
Qed.

(** The sample forecast: average chance of rain 60, average wind 25. *)
Lemma forecast_advisories_exact_witness :
  exists avg_rain avg_wind,
    average "daily_chance_of_rain" Sample.forecast = Ok avg_rain
    /\ average "maxwind_kph" Sample.forecast = Ok avg_wind
    /\ (In (msg_rain avg_rain)
          [MSG_PH_OPTIMAL;
           "High average chance of rain (60.0%). Delay irrigation.";
           "Strong winds expected (25.0 kph). Protect crops."]
        <-> num_ltb (NInt 50) (NFloat avg_rain) = true)
    /\ (In (msg_wind avg_wind)
          [MSG_PH_OPTIMAL;
           "High average chance of rain (60.0%). Delay irrigation.";
           "Strong winds expected (25.0 kph). Protect crops."]
        <-> num_ltb (NInt 20) (NFloat avg_wind) = true).
Proof.
  destruct (proj2 (forecast_advisories_exact insertion_order
                     (engine_input (PInt 150) (PFloat 0.5) (PInt 65) (PInt 5))
                     Sample.forecast _ eq_refl) eq_refl)
    as (ar & aw & Har & Haw & Hrain & Hwind & _).
  exists ar, aw. repeat split; tauto.
Defined.

(** X3. A list the engine returns has no repeated string and at most six
    strings; under another enumeration order of the set the engine returns
    a permutation of it. *)
Theorem recommendations_distinct (order : set_order)
    (soil_data wd : pyval) (l : list string) :
  generate_recommendations order soil_data wd = Ok l ->
  NoDup l
  /\ (List.length l <= 6)%nat
  /\ forall order' : set_order,
       exists l', generate_recommendations order' soil_data wd = Ok l'
                  /\ Permutation l l'.
Proof.
  intros H. destruct (generate_recommendations_dict _ _ _ _ H) as [d ->].
  destruct (generate_recommendations_in _ _ _ _ H)
    as (_ & _ & _ & _ & _ & _ & _ & _ & _ & _ & _ & Hnd & Hlen).
  split; [exact Hnd | split; [exact Hlen |]].
  intros order'.
  destruct (generate_recommendations_shape _ _ _ _ H)
    as (ph & low_n & dry & cec_ok & recs & Hph & Hn & Hw & Hc & Hr & ->).
  exists (order' recs). split.
  - unfold generate_recommendations. rewrite !get_dict. cbn [bind].
    rewrite Hph. cbn [bind]. rewrite Hn. cbn [bind]. rewrite Hw.
    cbn [bind]. rewrite Hc. cbn [bind].
    unfold soil_rules in Hr. cbv zeta in Hr. rewrite Hr. reflexivity.
  - eapply Permutation_trans; [apply list_of_set_perm |].
    apply Permutation_sym, list_of_set_perm.
Qed.

Lemma recommendations_distinct_witness :
  NoDup [MSG_PH_OPTIMAL;
         "High average chance of rain (60.0%). Delay irrigation.";
         "Strong winds expected (25.0 kph). Protect crops."].
Proof.
  exact (proj1 (recommendations_distinct insertion_order
                  (engine_input (PInt 150) (PFloat 0.5) (PInt 65) (PInt 5))
                  Sample.forecast _ eq_refl)).
Defined.

(* ================================================================== *)
(** ** What a request leaves in the table *)
(* ================================================================== *)

Section Persisted.

Lemma py_lt_number (a b : pyval) (c : bool) :
  py_lt a b = Ok c -> is_number a.
Proof.
  unfold py_lt, is_number. destruct (as_num a); [discriminate | discriminate].
Qed.

Lemma py_ge_number (a b : pyval) (c : bool) :
  py_ge a b = Ok c -> is_number a.
Proof.
  unfold py_ge, is_number. destruct (as_num a); [discriminate | discriminate].
Qed.

Lemma py_truediv_number (a b : pyval) (f : float) :
  py_truediv a b = Ok f -> is_number a.
Proof.
  unfold py_truediv, is_number.
  destruct (as_num a); [discriminate | discriminate].
Qed.

Variables (w : env) (lat0 lon0 : float).

(** What [new_record] has computed when it returns, and the response that
    follows the commit. *)
Lemma new_record_fields (m : measurements) (weather_data : pyval)
    (record : SoilData) :
  new_record w lat0 lon0 m weather_data = Ok record ->
  exists ph10,
    py_truediv (ph record) (PInt 10) = Ok ph10
    /\ today weather_data "avgtemp_c" = Ok (temperature record)
    /\ today weather_data "avghumidity" = Ok (humidity record)
    /\ id record = None
    /\ nitrogen record = m_nitrogen m
    /\ nitrogen_uncertainty record = m_nitrogen_uncertainty m
    /\ ph record = m_phh2o m
    /\ moisture record = m_wv0010 m
    /\ cec record = m_cec m
    /\ predictions record = ""
    /\ is_number (nitrogen record) /\ is_number (ph record)
    /\ is_number (moisture record) /\ is_number (cec record)
    /\ success_response m weather_data record
       = Ok {| status := 200;
               json_body :=
                 Success
                   {| v_nitrogen := {| interpolated := nitrogen record;
                                       literal := " g/kg" |};
                      v_nitrogen_uncertainty :=
                        {| interpolated := nitrogen_uncertainty record;
                           literal := " " |};
                      v_ph := {| interpolated := PFloat ph10;
                                 literal := " pH" |};
                      v_moisture := {| interpolated := moisture record;
                                       literal := " cm³/cm³" |};
                      v_cec := {| interpolated := cec record;
                                  literal := " cmol(c)/kg" |};
                      v_temperature :=
                        {| interpolated := temperature record;
                           literal := " °C" |};
                      v_humidity := {| interpolated := humidity record;
                                       literal := " %" |} |}
                   (PStr (recommendations record)) |}.
Proof.
  unfold new_record. intros H.
  destruct (today weather_data "avgtemp_c") as [t | e] eqn:Et;
    cbn [bind] in H; [| discriminate].
  destruct (today weather_data "avghumidity") as [h | e] eqn:Eh;
    cbn [bind] in H; [| discriminate].
  match type of H with
  | bind ?c _ = _ => destruct c as [recs | e] eqn:Eg;
                     cbn [bind] in H; [| discriminate]
  end.
  injection H as <-.
  destruct (generate_recommendations_shape _ _ _ _ Eg)
    as (ph10 & low_n & dry & cec_ok & r & Hph & Hn & Hw & Hc & _).
  cbn [value_or Obj.assoc String.eqb Ascii.eqb Bool.eqb] in Hph, Hn, Hw, Hc.
  exists ph10. cbn [ph temperature humidity id nitrogen nitrogen_uncertainty
                    moisture cec predictions recommendations].
  repeat (split; [reflexivity || assumption |]).
  split; [exact (py_lt_number _ _ _ Hn) |].
  split; [exact (py_truediv_number _ _ _ Hph) |].
  split; [exact (py_lt_number _ _ _ Hw) |].
  split; [exact (py_ge_number _ _ _ Hc) |].
  unfold success_response. rewrite Hph, Et, Eh. reflexivity.
Qed.

(** The outcomes of the fetch stage: either a record is appended and the
    answer is the success response built from it, or the table is
    untouched and the answer is no success. *)
Lemma fetch_and_store_outcomes (table0 : list SoilData) :
  (exists m weather_data record resp,
      get_weather_data (weather_api w lat0 lon0) = Ok weather_data
      /\ new_record w lat0 lon0 m weather_data = Ok record
      /\ not_null record = true
      /\ success_response m weather_data record = Ok resp
      /\ run (fetch_and_store w lat0 lon0) table0
         = {| result := Ok resp;
              table := (table0 ++ [with_id (next_id table0) record])%list;
              calls := both_calls lat0 lon0 |})
  \/ (~ is_success (result (run (fetch_and_store w lat0 lon0) table0))
      /\ table (run (fetch_and_store w lat0 lon0) table0) = table0).
Proof.
  rewrite fetch_and_store_run.
  assert (forall e : exn, ~ is_success (Raise e)) as Hraise.
  { intros e (resp & sv & recs & [=] & _). }
  destruct (get_soil_data (soil_api w lat0 lon0)) as [soil_data | e];
    [| right; split; [apply Hraise | reflexivity]].
  destruct (get_weather_data (weather_api w lat0 lon0))
    as [weather_data | e]; [| right; split; [apply Hraise | reflexivity]].
  destruct (negb (Obj.truthy soil_data) || negb (Obj.truthy weather_data)).
  { right. split; [| reflexivity].
    intros (resp & sv & recs & [= <-] & Hb). discriminate. }
  destruct (extract_measurements soil_data) as [m | e];
    [| right; split; [apply Hraise | reflexivity]].
  destruct (new_record w lat0 lon0 m weather_data) as [record | e] eqn:Er;
    [| right; split; [apply Hraise | reflexivity]].
  destruct (not_null record) eqn:Hnn;
    [| right; split; [apply Hraise | reflexivity]].
  left. destruct (new_record_fields _ _ _ Er)
    as (ph10 & _ & _ & _ & _ & _ & _ & _ & _ & _ & _ & _ & _ & _ & _ & Hresp).
  exists m, weather_data, record. eexists.
  repeat split; try eassumption. now rewrite Hresp.
Qed.

Lemma table_after_lookup_fresh (table0 : list SoilData) (r : SoilData) :
  find_closest_coordinates table0 lat0 lon0 DEFAULT_THRESHOLD = Some r ->
  now_at_lookup w - recorded_at_utc r <= TWO_DAYS ->
  table_after_lookup w table0 lat0 lon0 = table0.
Proof.
  intros Hfind Hage. unfold table_after_lookup. rewrite Hfind.
  destruct (Z.gtb_spec (now_at_lookup w - recorded_at_utc r) TWO_DAYS);
    [lia | reflexivity].
Qed.

End Persisted.

(** X4. A request adds a record to the table exactly when it answers with
    the success body: either the answer is a success and the table is the
    one the lookup left plus one record, or the answer is no success (the
    cached record, the fetch-failure response, an exception) and the table
    is the one the lookup left.  Nothing fails once the record is
    committed. *)
Theorem record_added_iff_success (w : env) (table0 : list SoilData)
    (lat0 lon0 : float) :
  (is_success (result (serve w table0 lat0 lon0))
   /\ exists r,
        table (serve w table0 lat0 lon0)
        = (table_after_lookup w table0 lat0 lon0 ++ [r])%list)
  \/ (~ is_success (result (serve w table0 lat0 lon0))
      /\ table (serve w table0 lat0 lon0)
         = table_after_lookup w table0 lat0 lon0).
Proof.
  destruct (serve_cases w lat0 lon0 table0)
    as [(r & Hfind & Hage & ->) | (Hmiss & ->)].
  - right. rewrite (table_after_lookup_fresh w lat0 lon0 _ _ Hfind Hage).
    split; [| reflexivity].
    intros (resp & sv & recs & [= <-] & Hb). discriminate.
  - destruct (fetch_and_store_outcomes w lat0 lon0
                (table_after_lookup w table0 lat0 lon0))
      as [(m & wd & record & resp & _ & Hr & _ & Hresp & ->) | H];
      [left | right; exact H].
    split; [| now eexists].
    destruct (new_record_fields _ _ _ _ _ _ Hr)
      as (ph10 & _ & _ & _ & _ & _ & _ & _ & _ & _ & _ & _ & _ & _ & _ & Hs).
    rewrite Hs in Hresp. injection Hresp as <-.
    do 3 eexists. split; reflexivity.
Qed.



(* ================================================================== *)
(** ** Lookups at special coordinates *)
(* ================================================================== *)

Lemma far_from_non_finite_record (x y : float) :
  In x NON_FINITE ->
  PrimFloat.leb (PrimFloat.abs (x - y)) 0.5 = false.
Proof.
  intros Hx. rewrite leb_spec, abs_spec, sub_spec.
  simpl in Hx. destruct Hx as [<- | [<- | [<- | []]]];
    destruct (Prim2SF y) as [[|] | [|] | | [|] m e]; reflexivity.
Qed.

(** X7. [float()] accepts "nan" and "inf".  A query whose latitude or
    longitude is not finite matches no stored record, so such a request
    never reuses a record and always goes to the two services; and a
    record stored with such a coordinate is never returned by any
    lookup. *)
Theorem non_finite_coordinates_never_match (records : list SoilData)
    (lat0 lon0 : float) :
  (In lat0 NON_FINITE \/ In lon0 NON_FINITE ->
   find_closest_coordinates records lat0 lon0 DEFAULT_THRESHOLD = None
   /\ forall w, serve w records lat0 lon0
                = run (fetch_and_store w lat0 lon0) records)
  /\ (forall r,
         In (lat r) NON_FINITE \/ In (lon r) NON_FINITE ->
         find_closest_coordinates records lat0 lon0 DEFAULT_THRESHOLD
         <> Some r).
Proof.
  split.
  - intros Hq.
    assert (find_closest_coordinates records lat0 lon0 DEFAULT_THRESHOLD
            = None) as Hnone.
    { apply find_none_iff, Forall_forall. intros r _ [Hlat Hlon].
      unfold DEFAULT_THRESHOLD in *.
      destruct Hq as [Hq | Hq];
        [rewrite (far_from_non_finite _ _ Hq) in Hlat
        | rewrite (far_from_non_finite _ _ Hq) in Hlon]; discriminate. }
    split; [exact Hnone |]. intros w. now apply serve_absent.
  - intros r Hr Hfind. apply find_some_split in Hfind.
    destruct Hfind as (_ & _ & _ & [Hlat Hlon] & _).
    unfold DEFAULT_THRESHOLD in *.
    destruct Hr as [Hr | Hr];
      [rewrite (far_from_non_finite_record _ _ Hr) in Hlat
      | rewrite (far_from_non_finite_record _ _ Hr) in Hlon]; discriminate.
Qed.

(** A record stored for the very latitude of the query, when that is a
    NaN, is not found. *)
Lemma non_finite_coordinates_never_match_witness :
  find_closest_coordinates [Sample.stored 1 PrimFloat.nan 20 Sample.T0]
    PrimFloat.nan 20 DEFAULT_THRESHOLD = None.
Proof.
  apply (proj1 (non_finite_coordinates_never_match
                  [Sample.stored 1 PrimFloat.nan 20 Sample.T0]
                  PrimFloat.nan 20)).
  left. left. reflexivity.
Defined.

(** X8. After a request for finite coordinates that found no record and
    stored one, a request for the same coordinates made at most two days
    after the record was written is answered with that record, without
    any call to the services and without any change to the table. *)
Theorem same_coordinates_round_trip (w1 : env) (table0 : list SoilData)
    (lat0 lon0 : float) :
  ~ In lat0 NON_FINITE -> ~ In lon0 NON_FINITE ->
  find_closest_coordinates table0 lat0 lon0 DEFAULT_THRESHOLD = None ->
  is_success (result (serve w1 table0 lat0 lon0)) ->
  exists r,
    table (serve w1 table0 lat0 lon0) = (table0 ++ [r])%list
    /\ forall w2,
         now_at_lookup w2 - now_at_insert w1 <= TWO_DAYS ->
         serve w2 (table0 ++ [r]) lat0 lon0
         = {| result := Ok (found_response r);
              table := (table0 ++ [r])%list;
              calls := [] |}.
Proof.
  intros Hlat Hlon Hnone (resp & sv & recs & Hresult & Hbody).
  rewrite (serve_absent w1 lat0 lon0 table0 Hnone) in *.
  destruct (fetch_and_store_success w1 lat0 lon0 _ _ _ _ Hresult Hbody)
    as (soil_data & weather_data & m & record & advisories
        & _ & _ & _ & _ & _ & _ & Hdate & Hla & Hlo & -> & _).
  exists (with_id (next_id table0) record). split; [reflexivity |].
  intros w2 Hage. apply serve_fresh.
  - unfold DEFAULT_THRESHOLD in *. apply find_split_some.
    + unfold within. simpl. rewrite Hla, Hlo.
      split; now apply close_to_itself.
    + now apply find_none_iff.
  - now rewrite (recorded_at_utc_with_id _ _ _ Hdate).
Qed.

Lemma same_coordinates_round_trip_witness :
  exists r,
    table (serve (Sample.both_up Sample.T0) [] 39.875 32.75) = [r]
    /\ serve (Sample.both_up (Sample.T0 + TWO_DAYS)) [r] 39.875 32.75
       = {| result := Ok (found_response r); table := [r]; calls := [] |}.
Proof.
  destruct (same_coordinates_round_trip (Sample.both_up Sample.T0) []
              39.875%float 32.75%float)
    as (r & Ht & Hround).
  - simpl. intros [H | [H | [H | []]]]; discriminate H.
  - simpl. intros [H | [H | [H | []]]]; discriminate H.
  - reflexivity.
  - do 3 eexists. split; reflexivity.
  - exists r. split; [exact Ht |].
    apply (Hround (Sample.both_up (Sample.T0 + TWO_DAYS))).
    vm_compute. discriminate.
Defined.

(* ================================================================== *)
(** ** The two fetchers inside a request *)
(* ================================================================== *)

Section Fetchers.

Lemma iter_nonempty_truthy (v : pyval) (x : pyval) (rest : list pyval) :
  Obj.iter v = Ok (x :: rest) -> Obj.truthy v = true.
Proof.
  destruct v as [| | | | s | l | d]; try discriminate; simpl.
  - destruct s; [discriminate | reflexivity].
  - intros [= ->]. reflexivity.
  - destruct d; [discriminate | reflexivity].
Qed.

Lemma all_values_none_dicts (layers : list pyval) :
  Forall is_dict layers ->
  all_values_none layers = Ok (forallb layer_all_null layers).
Proof.
  induction 1 as [| layer rest [d ->] _ IH]; simpl; [reflexivity |].
  destruct (forallb is_none (map snd d)); [exact IH | reflexivity].
Qed.

End Fetchers.

(** X9. Whatever [get_soil_data] returns is true in Python: the layers
    it passes on are not empty and the error dict is not empty either.  So
    the test [not soil_data] of the handler never holds, and a request
    answers with the fetch-failure response only when the forecast is
    missing. *)
Theorem get_soil_data_never_falsy :
  (forall r v, get_soil_data r = Ok v -> Obj.truthy v = true)
  /\ (forall w lat0 lon0 table0,
         result (run (fetch_and_store w lat0 lon0) table0) = Ok fetch_failed ->
         exists weather_data,
           get_weather_data (weather_api w lat0 lon0) = Ok weather_data
           /\ Obj.truthy weather_data = false).
Proof.
  assert (forall r v, get_soil_data r = Ok v -> Obj.truthy v = true) as Ht.
  { intros [e | status_code json] v; simpl; [discriminate |].
    destruct (status_code =? 200); [| now intros [= <-]].
    intros H. bind_ok H. bind_ok H. bind_ok H. bind_ok H. bind_ok H.
    destruct a3; injection H as <-; [reflexivity |].
    destruct a2 as [| x rest]; [discriminate |].
    now apply iter_nonempty_truthy with (x := x) (rest := rest). }
  split; [exact Ht |].
  intros w lat0 lon0 table0. rewrite fetch_and_store_run.
  destruct (get_soil_data (soil_api w lat0 lon0)) as [soil_data | e] eqn:Es;
    [| discriminate].
  destruct (get_weather_data (weather_api w lat0 lon0))
    as [weather_data | e]; [| discriminate].
  rewrite (Ht _ _ Es). simpl.
  destruct (Obj.truthy weather_data) eqn:Ew; simpl.
  - destruct (extract_measurements soil_data) as [m | e]; [| discriminate].
    destruct (new_record w lat0 lon0 m weather_data) as [record | e] eqn:Er;
      [| discriminate].
    destruct (not_null record); [| discriminate].
    destruct (new_record_fields _ _ _ _ _ _ Er)
      as (ph10 & _ & _ & _ & _ & _ & _ & _ & _ & _ & _ & _ & _ & _ & _ & ->).
    discriminate.
  - intros _. now exists weather_data.
Qed.

Lemma get_soil_data_never_falsy_witness :
  Obj.truthy (PDict [("error", PStr "Failed to fetch data: 503")]) = true.
Proof.
  exact (proj1 get_soil_data_never_falsy (HttpResponse 503 None) _ eq_refl).
Defined.

(** X10. On a status-200 answer whose layers are dicts, the null check
    turns the payload into the error dict exactly when every value of
    every layer is null (in particular when there is no layer); otherwise
    the list of layers is returned as it came. *)
Theorem null_check_on_layers (body props : pyval) (layers : list pyval) :
  Obj.getitem body "properties" = Ok props ->
  Obj.getitem props "layers" = Ok (PList layers) ->
  Forall is_dict layers ->
  get_soil_data (HttpResponse 200 (Some body))
  = Ok (if forallb layer_all_null layers
        then PDict [("error",
                     PStr "Data returned is null. Please try again later.")]
        else PList layers).
Proof.
  intros Hb Hp Hd. simpl. rewrite Hb. simpl. rewrite Hp. simpl.
  rewrite (all_values_none_dicts _ Hd). simpl.
  now destruct (forallb layer_all_null layers).
Qed.

(** The sample payload comes back as it is; a payload of one layer that
    holds nothing but nulls becomes the error dict. *)
Lemma null_check_on_layers_witness :
  get_soil_data (HttpResponse 200 (Some (Sample.soil_json Sample.all_layers)))
  = Ok (PList Sample.all_layers)
  /\ get_soil_data
       (HttpResponse 200
          (Some (Sample.soil_json [PDict [("name", PNone);
                                          ("depths", PNone)]])))
     = Ok (PDict [("error",
                   PStr "Data returned is null. Please try again later.")]).
Proof.
  split.
  - refine (null_check_on_layers (Sample.soil_json Sample.all_layers) _
              Sample.all_layers eq_refl eq_refl _).
    repeat constructor; eexists; reflexivity.
  - refine (null_check_on_layers
              (Sample.soil_json [PDict [("name", PNone); ("depths", PNone)]])
              _ [PDict [("name", PNone); ("depths", PNone)]]
              eq_refl eq_refl _).
    repeat constructor; eexists; reflexivity.
Defined.

(** X11. On a cache miss on which the soil fetch does not raise, a
    weather service that answers with a status other than 200, or with an
    empty forecast, makes the request answer the fetch-failure response
    with status 500; both services were called and nothing is stored. *)
Theorem weather_failure_on_miss (w : env) (table0 : list SoilData)
    (lat0 lon0 : float) (soil_data : pyval) :
  cache_miss w table0 lat0 lon0 ->
  get_soil_data (soil_api w lat0 lon0) = Ok soil_data ->
  (exists status_code json,
      weather_api w lat0 lon0 = HttpResponse status_code json
      /\ status_code <> 200)
  \/ (exists body forecast,
         weather_api w lat0 lon0 = HttpResponse 200 (Some body)
         /\ Obj.getitem body "forecast" = Ok forecast
         /\ Obj.getitem forecast "forecastday" = Ok (PList [])) ->
  serve w table0 lat0 lon0
  = {| result := Ok {| status := 500;
                       json_body := Error "Failed to fetch data." |};
       table := table_after_lookup w table0 lat0 lon0;
       calls := [GetSoil lat0 lon0; GetWeather lat0 lon0] |}.
Proof.
  intros Hmiss Hsoil Hweather.
  rewrite (serve_miss w lat0 lon0 table0 Hmiss), fetch_and_store_run, Hsoil.
  assert (exists wd, get_weather_data (weather_api w lat0 lon0) = Ok wd
                     /\ Obj.truthy wd = false) as (wd & -> & Hwd).
  { destruct Hweather as [(status_code & json & -> & Hs)
                         | (body & forecast & -> & Hb & Hf)]; simpl.
    - destruct (Z.eqb_spec status_code 200); [contradiction |].
      now exists PNone.
    - rewrite Hb. simpl. rewrite Hf. now exists (PList []). }
  rewrite Hwd, orb_true_r. reflexivity.
Qed.

Lemma weather_failure_on_miss_witness :
  serve (Sample.world
           (HttpResponse 200 (Some (Sample.soil_json Sample.all_layers)))
           (HttpResponse 403 None) Sample.T0) [] 39.875 32.75
  = {| result := Ok {| status := 500;
                       json_body := Error "Failed to fetch data." |};
       table := [];
       calls := [GetSoil 39.875 32.75; GetWeather 39.875 32.75] |}.
Proof.
  refine (weather_failure_on_miss
            (Sample.world
               (HttpResponse 200 (Some (Sample.soil_json Sample.all_layers)))
               (HttpResponse 403 None) Sample.T0) [] 39.875 32.75
            (PList Sample.all_layers) _ eq_refl _).
  - intros r [=].
  - left. exists 403, None. split; [reflexivity | discriminate].
Defined.

(* ================================================================== *)
(** ** What a request does to the other records and to the services *)
(* ================================================================== *)

Lemma delete_row_removes (r : SoilData) (rows0 : list SoilData) :
  id r <> None -> ~ In r (delete_row r rows0).
Proof.
  intros Hid Hin. apply filter_In in Hin. destruct Hin as [_ Hin].
  unfold same_id in Hin. destruct (id r) as [i |]; [| contradiction].
  now rewrite Z.eqb_refl in Hin.
Qed.

(** X12. A stale record is deleted before the services are asked, and it
    stays deleted when the request then fails: if the lookup matched a
    record more than two days old and the answer is no success, the table
    is the old one without the rows of that record's key, and the record
    is gone. *)
Theorem stale_record_lost_when_refetch_fails (w : env)
    (table0 : list SoilData) (lat0 lon0 : float) (r : SoilData) :
  find_closest_coordinates table0 lat0 lon0 DEFAULT_THRESHOLD = Some r ->
  now_at_lookup w - recorded_at_utc r > TWO_DAYS ->
  ~ is_success (result (serve w table0 lat0 lon0)) ->
  In r table0
  /\ table (serve w table0 lat0 lon0) = delete_row r table0
  /\ (id r <> None -> ~ In r (table (serve w table0 lat0 lon0))).
Proof.
  intros Hfind Hstale Hfail.
  rewrite (serve_stale w lat0 lon0 table0 r Hfind Hstale) in *.
  split.
  { apply find_some_split in Hfind.
    destruct Hfind as (before & after & -> & _). apply in_elt. }
  destruct (fetch_and_store_outcomes w lat0 lon0 (delete_row r table0))
    as [(m & wd & record & resp & _ & Hr & _ & Hresp & Hrun) | [_ Htable]].
  - elim Hfail. rewrite Hrun. simpl.
    destruct (new_record_fields _ _ _ _ _ _ Hr)
      as (ph10 & _ & _ & _ & _ & _ & _ & _ & _ & _ & _ & _ & _ & _ & _ & Hs).
    rewrite Hs in Hresp. injection Hresp as <-.
    do 3 eexists. split; reflexivity.
  - rewrite Htable. split; [reflexivity |]. apply delete_row_removes.
Qed.

(** A record three days old, and a weather service that answers 403. *)
Lemma stale_record_lost_when_refetch_fails_witness :
  table (serve (Sample.world
                  (HttpResponse 200
                     (Some (Sample.soil_json Sample.all_layers)))
                  (HttpResponse 403 None)
                  (Sample.T0 + 3 * 86400000000))
           [Sample.stored 1 40 33 Sample.T0] 39.875 32.75)
  = [].
Proof.
  refine (proj1 (proj2
            (stale_record_lost_when_refetch_fails
               (Sample.world
                  (HttpResponse 200
                     (Some (Sample.soil_json Sample.all_layers)))
                  (HttpResponse 403 None)
                  (Sample.T0 + 3 * 86400000000))
               [Sample.stored 1 40 33 Sample.T0] 39.875 32.75
               (Sample.stored 1 40 33 Sample.T0) eq_refl _ _))).
  - reflexivity.
  - intros (resp & sv & recs & Hresult & Hbody).
    vm_compute in Hresult. injection Hresult as <-. discriminate Hbody.
Defined.

(** X13. A request calls the services in one of three ways: not at all,
    when it reuses a record; the soil service alone, when the soil fetch
    raises; the soil service and then the weather service, both with the
    coordinates of the query, in every other case. *)
Theorem upstream_calls (w : env) (table0 : list SoilData)
    (lat0 lon0 : float) :
  (calls (serve w table0 lat0 lon0) = []
   /\ exists r,
        find_closest_coordinates table0 lat0 lon0 DEFAULT_THRESHOLD = Some r
        /\ result (serve w table0 lat0 lon0) = Ok (found_response r))
  \/ (calls (serve w table0 lat0 lon0) = [GetSoil lat0 lon0]
      /\ cache_miss w table0 lat0 lon0
      /\ exists e, get_soil_data (soil_api w lat0 lon0) = Raise e
                   /\ result (serve w table0 lat0 lon0) = Raise e)
  \/ (calls (serve w table0 lat0 lon0)
      = [GetSoil lat0 lon0; GetWeather lat0 lon0]
      /\ cache_miss w table0 lat0 lon0
      /\ exists soil_data,
           get_soil_data (soil_api w lat0 lon0) = Ok soil_data).
Proof.
  destruct (serve_cases w lat0 lon0 table0)
    as [(r & Hfind & _ & ->) | (Hmiss & ->)].
  - left. split; [reflexivity |]. now exists r.
  - right. rewrite fetch_and_store_run.
    destruct (get_soil_data (soil_api w lat0 lon0)) as [soil_data | e].
    + right. split; [| split; [exact Hmiss | now exists soil_data]].
      repeat match goal with
             | |- context [match ?c with _ => _ end] => destruct c
             end; reflexivity.
    + left. split; [reflexivity | split; [exact Hmiss |]]. now exists e.
Qed.

(** X14. A request leaves every other record as it was: each row of the
    old table that does not carry the key of the record the lookup
    matched is still in the table afterwards, every row of the new table
    but at most one appended row comes from the old table, and the table
    grows by at most one row. *)
Theorem other_records_untouched (w : env) (table0 : list SoilData)
    (lat0 lon0 : float) :
  exists kept added,
    table (serve w table0 lat0 lon0) = (kept ++ added)%list
    /\ (List.length added <= 1)%nat
    /\ (forall x, In x kept -> In x table0)
    /\ (forall x,
           In x table0 ->
           (forall r,
               find_closest_coordinates table0 lat0 lon0 DEFAULT_THRESHOLD
               = Some r -> same_id x r = false) ->
           In x kept).
Proof.
  exists (table_after_lookup w table0 lat0 lon0).
  assert (exists added,
             table (serve w table0 lat0 lon0)
             = (table_after_lookup w table0 lat0 lon0 ++ added)%list
             /\ (List.length added <= 1)%nat) as (added & Ht & Hl).
  { destruct (serve_cases w lat0 lon0 table0)
      as [(r & Hfind & Hage & ->) | (Hmiss & ->)].
    - exists []. rewrite (table_after_lookup_fresh w lat0 lon0 _ _ Hfind Hage).
      simpl. split; [now rewrite app_nil_r | lia].
    - destruct (fetch_and_store_outcomes w lat0 lon0
                  (table_after_lookup w table0 lat0 lon0))
        as [(m & wd & record & resp & _ & _ & _ & _ & ->) | [_ ->]].
      + eexists. split; [reflexivity | simpl; lia].
      + exists []. split; [now rewrite app_nil_r | simpl; lia]. }
  exists added. split; [exact Ht | split; [exact Hl |]].
  unfold table_after_lookup.
  destruct (find_closest_coordinates table0 lat0 lon0 DEFAULT_THRESHOLD)
    as [r |]; [| split; auto].
  destruct (now_at_lookup w - recorded_at_utc r >? TWO_DAYS); [| split; auto].
  split.
  - intros x Hx. now apply filter_In in Hx.
  - intros x Hx Hother. apply filter_In. split; [exact Hx |].
    now rewrite (Hother r eq_refl).
Qed.

Lemma other_records_untouched_witness :
  exists kept added,
    table (serve (Sample.both_up (Sample.T0 + 1000000))
             [Sample.northern] 10 20) = (kept ++ added)%list
    /\ (List.length added <= 1)%nat
    /\ In Sample.northern kept.
Proof.
  destruct (other_records_untouched (Sample.both_up (Sample.T0 + 1000000))
              [Sample.northern] 10%float 20%float)
    as (kept & added & Ht & Hl & _ & Hkept).
  exists kept, added. split; [exact Ht | split; [exact Hl |]].
  apply Hkept; [now left | intros r [=]].
Defined.

(** X15. An answer with status 200 that is not what the fetchers expect
    is no fetch failure for them: a body that is not JSON raises
    [JSONDecodeError], a JSON object without the key ['properties'] (soil)
    or ['forecast'] (weather) raises [KeyError].  On a cache miss the
    request then ends in that exception, with nothing stored; when it is
    the soil answer, the weather service is not called. *)
Theorem malformed_answers_raise (w : env) (table0 : list SoilData)
    (lat0 lon0 : float) :
  cache_miss w table0 lat0 lon0 ->
  (soil_api w lat0 lon0 = HttpResponse 200 None ->
   serve w table0 lat0 lon0
   = {| result := Raise JSONDecodeError;
        table := table_after_lookup w table0 lat0 lon0;
        calls := [GetSoil lat0 lon0] |})
  /\ (forall d,
         soil_api w lat0 lon0 = HttpResponse 200 (Some (PDict d)) ->
         Obj.assoc "properties" d = None ->
         serve w table0 lat0 lon0
         = {| result := Raise KeyError;
              table := table_after_lookup w table0 lat0 lon0;
              calls := [GetSoil lat0 lon0] |})
  /\ (forall soil_data,
         get_soil_data (soil_api w lat0 lon0) = Ok soil_data ->
         weather_api w lat0 lon0 = HttpResponse 200 None ->
         serve w table0 lat0 lon0
         = {| result := Raise JSONDecodeError;
              table := table_after_lookup w table0 lat0 lon0;
              calls := [GetSoil lat0 lon0; GetWeather lat0 lon0] |})
  /\ (forall soil_data d,
         get_soil_data (soil_api w lat0 lon0) = Ok soil_data ->
         weather_api w lat0 lon0 = HttpResponse 200 (Some (PDict d)) ->
         Obj.assoc "forecast" d = None ->
         serve w table0 lat0 lon0
         = {| result := Raise KeyError;
              table := table_after_lookup w table0 lat0 lon0;
              calls := [GetSoil lat0 lon0; GetWeather lat0 lon0] |}).
Proof.
  intros Hmiss. rewrite (serve_miss w lat0 lon0 table0 Hmiss).
  rewrite fetch_and_store_run. repeat split.
  - intros ->. reflexivity.
  - intros d -> Hd. simpl. now rewrite Hd.
  - intros soil_data -> ->. reflexivity.
  - intros soil_data d -> -> Hd. simpl. now rewrite Hd.
Qed.

(** WeatherAPI answers 200 with an error object instead of a forecast. *)
Lemma malformed_answers_raise_witness :
  serve (Sample.world
           (HttpResponse 200 (Some (Sample.soil_json Sample.all_layers)))
           (HttpResponse 200
              (Some (PDict [("error", PDict [("code", PInt 1006)])])))
           Sample.T0) [] 39.875 32.75
  = {| result := Raise KeyError; table := [];
       calls := [GetSoil 39.875 32.75; GetWeather 39.875 32.75] |}.
Proof.
  refine (proj2 (proj2 (proj2
            (malformed_answers_raise
               (Sample.world
                  (HttpResponse 200
                     (Some (Sample.soil_json Sample.all_layers)))
                  (HttpResponse 200
                     (Some (PDict [("error", PDict [("code", PInt 1006)])])))
                  Sample.T0) [] 39.875 32.75 _)))
            (PList Sample.all_layers)
            [("error", PDict [("code", PInt 1006)])] eq_refl eq_refl eq_refl).
  intros r [=].
Defined.
